(** * Detekt [detector.py]: the scan-and-report pipeline and the driver-service
      lifecycle, as a shallow embedding.

    The Python module talks to four collaborators: the operating system
    ([os.getcwd], [os.path.exists], [os.getpid]), the project's [Config] and
    [Service] classes, and Volatility (address-space loading, the Yara match
    generator, [utils.Hexdump]).  Their answers are gathered in one record,
    [collaborators]; the program itself only ever appends to its two queues
    and to its logger and never reads them back, so a run is described by
    its outcome (a value or a raised exception) together with the ordered
    list of effects it performed. *)

From stdpp Require Import base option list gmap strings.
From Stdlib Require Import ZArith String.

Open Scope string_scope.
Open Scope Z_scope.
Open Scope list_scope.

(** ** Python values and exceptions *)

Module Py.

(** The values that end up in queue messages and log arguments. *)
Inductive pyval : Type :=
| PNone
| PInt (z : Z)
| PStr (s : string).

#[global] Instance pyval_eq_dec : EqDecision pyval.
Proof. solve_decision. Defined.

(** Exception classes as [except DetectorError] tells them apart: the
    project's own [abstracts.DetectorError], and every other class. *)
Inductive exn : Type :=
| DetectorError (msg : string)
| ForeignError (cls : string).

#[global] Instance exn_eq_dec : EqDecision exn.
Proof. solve_decision. Defined.

Inductive outcome (A : Type) : Type :=
| Ret (a : A)
| Raise (e : exn).
Arguments Ret {A} a.
Arguments Raise {A} e.

(** Truthiness of an optional string ([not cfg.profile]): [None] and the
    empty string are falsy. *)
Definition truthy (v : option string) : bool :=
  match v with
  | None => false
  | Some s => negb (String.eqb s "")
  end.

End Py.
Import Py.

(** ** Messages, log records and effects *)

(** Modelled from the spec: the constants of [messages.py], which is not among
    the sources.  The error-message schema is a fixed enumeration of four
    kinds (UnsupportedPlatform, DriverNotFound, ServiceStartFailed,
    ScanFailed); the constructors carry the names [main] uses. *)
Inductive error_message : Type :=
| UNSUPPORTED_WINDOWS
| NO_DRIVER
| SERVICE_NO_START
| SCAN_FAILED.

#[global] Instance error_message_eq_dec : EqDecision error_message.
Proof. solve_decision. Defined.

Inductive level : Type := DEBUG | INFO | WARNING | ERROR | CRITICAL.

#[global] Instance level_eq_dec : EqDecision level.
Proof. solve_decision. Defined.

(** The [Service] object built by [Service(driver=..., service=...)]. *)
Record Service : Type := mkService { driver : string; service : string }.

#[global] Instance Service_eq_dec : EqDecision Service.
Proof. solve_decision. Defined.

Inductive service_op : Type := Create | Start | Stop | Delete.

#[global] Instance service_op_eq_dec : EqDecision service_op.
Proof. solve_decision. Defined.

(** The Volatility configuration object filled by [get_address_space]. *)
Record ConfObject : Type :=
  mkConf { PROFILE : string; LOCATION : string; YARA_FILE : string }.

#[global] Instance ConfObject_eq_dec : EqDecision ConfObject.
Proof. solve_decision. Defined.

(** A result message is the [dict(...)] put on [queue_results]. *)
Abbreviation message := (gmap string pyval).

(** Everything a run does to the outside, in program order.  A log record
    keeps the format string and its arguments apart, as [logging] does. *)
Inductive event : Type :=
| Log (lvl : level) (fmt : string) (args : list pyval)
| PutResult (m : message)
| PutError (e : error_message)
| PathExists (path : string)
| ServiceCall (s : Service) (op : service_op)
| LoadAs (c : ConfObject)
| YaraCalculate (c : ConfObject).

#[global] Instance event_eq_dec : EqDecision event.
Proof. solve_decision. Defined.

(** ** The effect monad: an outcome plus the effects performed so far *)

Definition M (A : Type) : Type := (outcome A * list event)%type.

Definition ret {A} (a : A) : M A := (Ret a, []).
Definition raise {A} (e : exn) : M A := (Raise e, []).
Definition emit (ev : event) : M unit := (Ret tt, [ev]).

Definition bind {A B} (m : M A) (k : A -> M B) : M B :=
  match m with
  | (Ret a, t) => let '(o, t') := k a in (o, t ++ t')
  | (Raise e, t) => (Raise e, t)
  end.

Declare Scope py_scope.
Delimit Scope py_scope with py.
Notation "'let*' x := m 'in' k" := (bind m (fun x => k))
  (at level 10, x name, m at level 100, k at level 200) : py_scope.
Notation "m ;; k" := (bind m (fun _ => k))
  (at level 100, right associativity) : py_scope.
Open Scope py_scope.

(** [try: body / except DetectorError as e: handler / else: orelse].  Only a
    [DetectorError] reaches the handler; any other exception leaves the
    statement as it came.  The effects of [body] up to the raise stay. *)
Definition try_except_DetectorError {A B}
    (body : M A) (handler : string -> M B) (orelse : A -> M B) : M B :=
  match body with
  | (Ret a, t) => let '(o, t') := orelse a in (o, t ++ t')
  | (Raise (DetectorError msg), t) => let '(o, t') := handler msg in (o, t ++ t')
  | (Raise (ForeignError c), t) => (Raise (ForeignError c), t)
  end.

Definition log (lvl : level) (fmt : string) (args : list pyval) : M unit :=
  emit (Log lvl fmt args).

(** What a trace leaves on each queue, oldest first. *)
Definition results_of (t : list event) : list message :=
  omap (fun ev => match ev with PutResult m => Some m | _ => None end) t.

Definition errors_of (t : list event) : list error_message :=
  omap (fun ev => match ev with PutError e => Some e | _ => None end) t.

Definition service_calls_of (t : list event) : list service_op :=
  omap (fun ev => match ev with ServiceCall _ op => Some op | _ => None end) t.


(** ** The collaborators *)

(** The object a match refers to ([o] in the loop of [scan]): its structure
    name and the two process ids read from it. *)
Record vobject : Type := mkObject {
  obj_name : string;
  UniqueProcessId : Z;
  InheritedFromUniqueProcessId : Z
}.

(** A Yara hit: the rule name and the rule's [meta] dictionary. *)
Record yara_hit : Type := mkHit { rule : string; meta : gmap string pyval }.

(** One tuple [(o, address, hit, value)] of [yara.calculate()]; [o = None]
    stands for a falsy object. *)
Record match_record : Type := mkMatch {
  o : option vobject;
  address : Z;
  hit : yara_hit;
  value : string
}.

(** The generator returned by [yara.calculate()]: finitely many tuples, then
    either exhaustion or an exception raised while producing the next one. *)
Record match_stream : Type := mkStream {
  items : list match_record;
  ending : option exn
}.

Record collaborators : Type := mkCollaborators {
  (* os *)
  getcwd : string;
  getpid : Z;
  path_join : string -> string -> string;
  path_exists : string -> bool;
  (* utils.get_resource *)
  get_resource : string -> string;
  (* Config: [cfg.profile] after [get_profile_name()], the truth value of
     [get_driver_path()], and the attributes read afterwards *)
  cfg_profile : option string;
  cfg_get_driver_path : bool;
  cfg_driver : string;
  cfg_service_name : string;
  cfg_service_path : string;
  (* Service: [None] when the call returns, [Some msg] when it raises
     [DetectorError(msg)] *)
  service_create : Service -> option string;
  service_start : Service -> option string;
  service_stop : Service -> option string;
  service_delete : Service -> option string;
  (* volatility *)
  load_as : ConfObject -> option exn;
  yara_calculate : ConfObject -> match_stream;
  Hexdump : string -> list (Z * string * list string)
}.

(** Modelled from the spec: [Service], whose file [service.py] is not among
    the sources.  Each lifecycle call either returns or fails with the
    service-lifecycle error, which in this code base is [DetectorError]. *)
Definition service_call (answer : Service -> option string)
    (s : Service) (op : service_op) : M unit :=
  emit (ServiceCall s op) ;;
  match answer s with
  | None => ret tt
  | Some msg => raise (DetectorError msg)
  end.

(** [os.path.exists(path)]. *)
Definition os_path_exists (E : collaborators) (path : string) : M bool :=
  emit (PathExists path) ;; ret (path_exists E path).

Definition newline : string := String (Ascii.ascii_of_nat 10) EmptyString.

(** ** [get_address_space] (lines 38-52) *)

Definition get_address_space (E : collaborators)
    (service_path profile yara_path : string) : M ConfObject :=
  log INFO "Obtaining address space and generating config for volatility" [] ;;
  let config := mkConf profile service_path yara_path in
  emit (LoadAs config) ;;
  match load_as E config with
  | None => ret config
  | Some e => raise e
  end.

(** ** [scan] (lines 54-108) *)

(** [int(x)] on the integers that stand for process ids. *)
Definition py_int (x : Z) : Z := x.

(** Lines 87-89: the hexdump rows joined into the evidence text. *)
Definition render_rule_data (E : collaborators) (v : string) : string :=
  fold_left
    (fun rule_data row =>
       let '(_, hexdata, translated_data) := row in
       rule_data +:+ (hexdata +:+ " " +:+ String.concat "" translated_data +:+ newline))
    (Hexdump E v) "".

(** Lines 94-100: the dictionary put on the result queue. *)
Definition result_dict (h : yara_hit) (pid ppid : Z) : message :=
  list_to_map [
    ("rule", PStr (rule h));
    ("detection", default PNone (meta h !! "detection"));
    ("description", default PNone (meta h !! "description"));
    ("pid", PInt pid);
    ("ppid", PInt ppid)
  ].

(** Lines 69-100: the body of the loop for one tuple, threading the local
    list [matched]. *)
Definition scan_record (E : collaborators) (r : match_record)
    (matched : list string) : M (list string) :=
  match o r with
  | None => ret matched
  | Some ob =>
      if String.eqb (obj_name ob) "_EPROCESS" then
        if py_int (UniqueProcessId ob) =? py_int (getpid E) then ret matched
        else if negb (bool_decide (rule (hit r) ∈ matched)) then
          let matched := matched ++ [rule (hit r)] in
          let pid := UniqueProcessId ob in
          let ppid := InheritedFromUniqueProcessId ob in
          let rule_data := render_rule_data E (value r) in
          log WARNING
            ("Matched: %s, PID: %s, PPID: %s, Address: %s, Value:"
               +:+ newline +:+ newline +:+ "%s")
            [PStr (rule (hit r)); PInt pid; PInt ppid; PInt (address r);
             PStr rule_data] ;;
          emit (PutResult (result_dict (hit r) pid ppid)) ;;
          ret matched
        else ret matched
      else ret matched
  end.

(** Line 68: the [for] loop over the generator. *)
Fixpoint scan_loop (E : collaborators) (its : list match_record)
    (stop : option exn) (matched : list string) : M (list string) :=
  match its with
  | [] => match stop with
          | None => ret matched
          | Some e => raise e
          end
  | r :: rest =>
      let* matched := scan_record E r matched in
      scan_loop E rest stop matched
  end.

Definition scan (E : collaborators) (service_path profile_name : string) : M bool :=
  let yara_path := path_join E (getcwd E) "signatures.yar" in
  let* found := os_path_exists E yara_path in
  let* yara_path :=
    (if negb found then
       let yara_path := get_resource E (path_join E "rules" "signatures.yar") in
       let* found := os_path_exists E yara_path in
       if negb found then
         raise (DetectorError "Unable to find a valid Yara signatures file!")
       else ret yara_path
     else ret yara_path) in
  log INFO "Selected Yara signature file at %s" [PStr yara_path] ;;
  let* space := get_address_space E service_path profile_name yara_path in
  emit (YaraCalculate space) ;;
  let yara := yara_calculate E space in
  let* matched := scan_loop E (items yara) (ending yara) [] in
  if (0 <? List.length matched)%nat then ret true else ret false.

(** ** [main] (lines 110-165) *)

(** [return] inside a branch ends the function: the rest of [main] sits in
    the other branch.  Past the first test [cfg.profile] is a non-empty
    string, read below as [profile]. *)
Definition main (E : collaborators) : M unit :=
  if negb (truthy (cfg_profile E)) then
    log ERROR "Unsupported version of Windows, can't select a profile" [] ;;
    emit (PutError UNSUPPORTED_WINDOWS)
  else
  let profile := default "" (cfg_profile E) in
  log INFO ("Selected Profile Name: " +:+ profile) [] ;;
  if negb (cfg_get_driver_path E) then
    log ERROR "Unable to find a proper winpmem driver" [] ;;
    emit (PutError NO_DRIVER)
  else
  log INFO ("Selected Driver: " +:+ cfg_driver E) [] ;;
  let service := mkService (cfg_driver E) (cfg_service_name E) in
  try_except_DetectorError
    (service_call (service_create E) service Create ;;
     service_call (service_start E) service Start)
    (fun e =>
       log CRITICAL "Unable to start winpmem service: %s" [PStr e] ;;
       emit (PutError SERVICE_NO_START))
    (fun _ =>
       log INFO "Service started" [] ;;
       try_except_DetectorError
         (log INFO "Starting yara scanner..." [] ;;
          scan E (cfg_service_path E) profile)
         (fun e =>
            log CRITICAL "Yara scanning failed: %s" [PStr e] ;;
            emit (PutError SCAN_FAILED))
         (fun _ => log INFO "Scanning finished" []) ;;
       try_except_DetectorError
         (service_call (service_stop E) service Stop ;;
          service_call (service_delete E) service Delete)
         (fun e => log ERROR "Unable to stop winpmem service: %s" [PStr e])
         (fun _ => log INFO "Service stopped" []) ;;
       log INFO "Analysis finished" []).

(** ** Reading a trace *)

(** The two events a reported tuple leaves behind: the warning record and the
    queue message (lines 91-100). *)
Definition report_events (E : collaborators) (r : match_record) : list event :=
  match o r with
  | None => []
  | Some ob =>
      [ Log WARNING
          ("Matched: %s, PID: %s, PPID: %s, Address: %s, Value:"
             +:+ newline +:+ newline +:+ "%s")
          [PStr (rule (hit r)); PInt (UniqueProcessId ob);
           PInt (InheritedFromUniqueProcessId ob); PInt (address r);
           PStr (render_rule_data E (value r))];
        PutResult (result_dict (hit r) (UniqueProcessId ob)
                     (InheritedFromUniqueProcessId ob)) ]
  end.

(** A tuple that refers to a process other than the scanner itself. *)
Definition foreign_process (E : collaborators) (r : match_record) : Prop :=
  exists ob, o r = Some ob /\ obj_name ob = "_EPROCESS"
             /\ UniqueProcessId ob <> getpid E.

Definition rule_of (m : message) : option pyval := m !! "rule".
Definition pid_of (m : message) : option pyval := m !! "pid".

(** The keys of the dictionary built at lines 94-100. *)
Definition result_keys : gset string :=
  {[ "rule"; "detection"; "description"; "pid"; "ppid" ]}.

(** Lines 157-163 of [main] on their own: the teardown statement. *)
Definition teardown (E : collaborators) (s : Service) : M unit :=
  try_except_DetectorError
    (service_call (service_stop E) s Stop ;;
     service_call (service_delete E) s Delete)
    (fun e => log ERROR "Unable to stop winpmem service: %s" [PStr e])
    (fun _ => log INFO "Service stopped" []).

(** The service object [main] builds at line 135. *)
Definition the_service (E : collaborators) : Service :=
  mkService (cfg_driver E) (cfg_service_name E).

(** The run gets as far as a started service: profile and driver resolve,
    [create] and [start] return. *)
Definition service_started (E : collaborators) : Prop :=
  truthy (cfg_profile E) = true /\ cfg_get_driver_path E = true
  /\ service_create E (the_service E) = None
  /\ service_start E (the_service E) = None.

(** Lines 56-60 read on their own: the places probed and the file chosen. *)
Definition cwd_signatures (E : collaborators) : string :=
  path_join E (getcwd E) "signatures.yar".

Definition packaged_signatures (E : collaborators) : string :=
  get_resource E (path_join E "rules" "signatures.yar").

Definition signature_path (E : collaborators) : option string :=
  if path_exists E (cwd_signatures E) then Some (cwd_signatures E)
  else if path_exists E (packaged_signatures E) then Some (packaged_signatures E)
  else None.

Definition probe_trace (E : collaborators) : list event :=
  if path_exists E (cwd_signatures E) then [PathExists (cwd_signatures E)]
  else [PathExists (cwd_signatures E); PathExists (packaged_signatures E)].

(** What [scan] does between choosing the file and asking for the matches
    (lines 62-64). *)
Definition load_trace (E : collaborators) (c : ConfObject) : list event :=
  probe_trace E ++
  [ Log INFO "Selected Yara signature file at %s" [PStr (YARA_FILE c)];
    Log INFO "Obtaining address space and generating config for volatility" [];
    LoadAs c ].

(** The signature file is at neither of the two places [scan] looks. *)
Definition signatures_missing (E : collaborators) : Prop :=
  path_exists E (cwd_signatures E) = false
  /\ path_exists E (packaged_signatures E) = false.

(** What [main] has done when the service is up and [scan] is about to be
    called (lines 122-147). *)
Definition startup_trace (E : collaborators) : list event :=
  [ Log INFO ("Selected Profile Name: " +:+ default "" (cfg_profile E)) [];
    Log INFO ("Selected Driver: " +:+ cfg_driver E) [];
    ServiceCall (the_service E) Create;
    ServiceCall (the_service E) Start;
    Log INFO "Service started" [];
    Log INFO "Starting yara scanner..." [] ].

(** The call of [scan] as [main] makes it (line 148). *)
Definition scan_step (E : collaborators) : M bool :=
  scan E (cfg_service_path E) (default "" (cfg_profile E)).

(** ** Reading the match stream and the order of effects *)

(** Lines 69-75 as one test: the tuple refers to an object, the object is an
    [_EPROCESS], and its pid is not the scanner's own. *)
Definition eligible (E : collaborators) (r : match_record) : bool :=
  match o r with
  | None => false
  | Some ob =>
      String.eqb (obj_name ob) "_EPROCESS"
      && negb (py_int (UniqueProcessId ob) =? py_int (getpid E))
  end.

(** The lifecycle of the driver service as the effects of a run show it.  A
    phase is named after the last service call attempted. *)
Inductive phase : Type := Idle | Created | Started | Stopped | Deleted.

#[global] Instance phase_eq_dec : EqDecision phase.
Proof. solve_decision. Defined.

(** One effect seen from a phase: the four service calls come in order, on the
    one service object [svc]; the file look-ups, the image load, the Yara call
    and the result messages belong between [start] and [stop]; log records and
    error messages may come at any time. *)
Definition protocol_step (svc : Service) (p : phase) (ev : event) : option phase :=
  match ev with
  | ServiceCall s op =>
      if bool_decide (s = svc) then
        match op, p with
        | Create, Idle => Some Created
        | Start, Created => Some Started
        | Stop, Started => Some Stopped
        | Delete, Stopped => Some Deleted
        | _, _ => None
        end
      else None
  | PathExists _ | LoadAs _ | YaraCalculate _ | PutResult _ =>
      match p with Started => Some Started | _ => None end
  | Log _ _ _ | PutError _ => Some p
  end.

(** The phase a trace ends in, or [None] if some effect came out of turn. *)
Fixpoint protocol (svc : Service) (p : phase) (t : list event) : option phase :=
  match t with
  | [] => Some p
  | ev :: t' =>
      match protocol_step svc p ev with
      | Some p' => protocol svc p' t'
      | None => None
      end
  end.

(** The effects that are neither a log record nor an error message. *)
Definition touches_outside (ev : event) : bool :=
  match ev with
  | Log _ _ _ | PutError _ => false
  | _ => true
  end.

(** ** Sample collaborators

    Concrete answers of the outside world, on which the statements below are
    exercised. *)

Module Sample.

Definition hex_digit (n : N) : string :=
  String.substring (N.to_nat n) 1 "0123456789abcdef".

Definition hex_byte (a : Ascii.ascii) : string :=
  let n := Ascii.N_of_ascii a in
  hex_digit (n / 16)%N +:+ hex_digit (n mod 16)%N.

Definition printable (a : Ascii.ascii) : string :=
  let n := Ascii.N_of_ascii a in
  if ((32 <? n) && (n <? 127))%N then String a EmptyString else ".".

(** A one-row hexdump, enough for short values. *)
Definition hexdump (v : string) : list (Z * string * list string) :=
  let bytes := String.list_ascii_of_string v in
  [(0, String.concat " " (map hex_byte bytes), map printable bytes)].

Definition finspy : yara_hit :=
  mkHit "FinSpy" {[ "detection" := PStr "FinFisher" ]}.

Definition blackshades : yara_hit :=
  mkHit "BlackShades" (<[ "description" := PStr "BlackShades RAT" ]> ∅).

Definition process (pid ppid : Z) : vobject := mkObject "_EPROCESS" pid ppid.

(** A machine on which every step can be steered: where the signature file
    is, what [stop] answers, whether the image loads, what Yara yields. *)
Definition machine (in_cwd packaged : bool) (stop_answer : option string)
    (image : option exn) (matches : match_stream) : collaborators := {|
  getcwd := "C:/detekt";
  getpid := 1000;
  path_join := fun a b => a +:+ "/" +:+ b;
  path_exists := fun p =>
    (in_cwd && String.eqb p "C:/detekt/signatures.yar")
    || (packaged && String.eqb p "C:/pkg/rules/signatures.yar");
  get_resource := fun p => "C:/pkg/" +:+ p;
  cfg_profile := Some "Win7SP1x64";
  cfg_get_driver_path := true;
  cfg_driver := "winpmem64.sys";
  cfg_service_name := "pmem";
  cfg_service_path := "//./pmem";
  service_create := fun _ => None;
  service_start := fun _ => None;
  service_stop := fun _ => stop_answer;
  service_delete := fun _ => None;
  load_as := fun _ => image;
  yara_calculate := fun _ => matches;
  Hexdump := hexdump
|}.

(** The same machine with a driver that does not start. *)
Definition start_refused (E : collaborators) : collaborators := {|
  getcwd := getcwd E; getpid := getpid E; path_join := path_join E;
  path_exists := path_exists E; get_resource := get_resource E;
  cfg_profile := cfg_profile E; cfg_get_driver_path := cfg_get_driver_path E;
  cfg_driver := cfg_driver E; cfg_service_name := cfg_service_name E;
  cfg_service_path := cfg_service_path E;
  service_create := service_create E;
  service_start := fun _ => Some "StartService failed";
  service_stop := service_stop E; service_delete := service_delete E;
  load_as := load_as E; yara_calculate := yara_calculate E;
  Hexdump := Hexdump E
|}.

Definition no_matches : match_stream := mkStream [] None.

(** Two hits of one rule in two processes, neither of them the scanner. *)
Definition same_rule_twice : match_stream :=
  mkStream [ mkMatch (Some (process 4 0)) 4096 finspy "MZ";
             mkMatch (Some (process 8 4)) 8192 finspy "PE" ] None.

(** A hit in the scanner's own process, then one elsewhere. *)
Definition self_then_other : match_stream :=
  mkStream [ mkMatch (Some (process 1000 4)) 4096 finspy "MZ";
             mkMatch (Some (process 8 4)) 8192 blackshades "PE" ] None.

(** Two reported hits, after which the generator raises. *)
Definition two_then_raise (e : exn) : match_stream :=
  mkStream [ mkMatch (Some (process 4 0)) 4096 finspy "MZ";
             mkMatch (Some (process 8 4)) 8192 blackshades "PE" ] (Some e).

(** One hit, at a given address and with a given value. *)
Definition one_hit (addr : Z) (v : string) : match_stream :=
  mkStream [ mkMatch (Some (process 4 0)) addr finspy v ] None.

Definition healthy (matches : match_stream) : collaborators :=
  machine true false None None matches.

(** A kernel-space hit, a falsy object and a hit in the scanner itself
    around two hits of different rules. *)
Definition mixed : match_stream :=
  mkStream [ mkMatch (Some (mkObject "_KTHREAD" 4 0)) 1024 finspy "KT";
             mkMatch (Some (process 4 0)) 4096 finspy "MZ";
             mkMatch None 2048 blackshades "??";
             mkMatch (Some (process 1000 4)) 4096 blackshades "MZ";
             mkMatch (Some (process 8 4)) 8192 blackshades "PE";
             mkMatch (Some (process 12 4)) 8192 finspy "PE" ] None.

(** A hexdump in rows of sixteen bytes, each with its offset; no row for no
    bytes. *)
Fixpoint hexdump_rows (fuel : nat) (offset : Z) (bytes : list Ascii.ascii)
    : list (Z * string * list string) :=
  match fuel, bytes with
  | O, _ | _, [] => []
  | S fuel', _ =>
      (offset, String.concat " " (map hex_byte (take 16 bytes)),
       map printable (take 16 bytes))
      :: hexdump_rows fuel' (offset + 16) (drop 16 bytes)
  end.

Definition hexdump16 (v : string) : list (Z * string * list string) :=
  hexdump_rows (String.length v) 0 (String.list_ascii_of_string v).

(** The healthy machine with the sixteen-byte hexdump. *)
Definition with_rows (matches : match_stream) : collaborators := {|
  getcwd := getcwd (healthy matches); getpid := getpid (healthy matches);
  path_join := path_join (healthy matches);
  path_exists := path_exists (healthy matches);
  get_resource := get_resource (healthy matches);
  cfg_profile := cfg_profile (healthy matches);
  cfg_get_driver_path := cfg_get_driver_path (healthy matches);
  cfg_driver := cfg_driver (healthy matches);
  cfg_service_name := cfg_service_name (healthy matches);
  cfg_service_path := cfg_service_path (healthy matches);
  service_create := service_create (healthy matches);
  service_start := service_start (healthy matches);
  service_stop := service_stop (healthy matches);
  service_delete := service_delete (healthy matches);
  load_as := load_as (healthy matches);
  yara_calculate := yara_calculate (healthy matches);
  Hexdump := hexdump16
|}.

(** The same machine with a driver that cannot be registered. *)
Definition create_refused (E : collaborators) : collaborators := {|
  getcwd := getcwd E; getpid := getpid E; path_join := path_join E;
  path_exists := path_exists E; get_resource := get_resource E;
  cfg_profile := cfg_profile E; cfg_get_driver_path := cfg_get_driver_path E;
  cfg_driver := cfg_driver E; cfg_service_name := cfg_service_name E;
  cfg_service_path := cfg_service_path E;
  service_create := fun _ => Some "CreateService failed";
  service_start := service_start E;
  service_stop := service_stop E; service_delete := service_delete E;
  load_as := load_as E; yara_calculate := yara_calculate E;
  Hexdump := Hexdump E
|}.

(** The same machine on a Windows version without a profile: the profile
    name comes back empty. *)
Definition no_profile (E : collaborators) : collaborators := {|
  getcwd := getcwd E; getpid := getpid E; path_join := path_join E;
  path_exists := path_exists E; get_resource := get_resource E;
  cfg_profile := Some ""; cfg_get_driver_path := cfg_get_driver_path E;
  cfg_driver := cfg_driver E; cfg_service_name := cfg_service_name E;
  cfg_service_path := cfg_service_path E;
  service_create := service_create E;
  service_start := service_start E;
  service_stop := service_stop E; service_delete := service_delete E;
  load_as := load_as E; yara_calculate := yara_calculate E;
  Hexdump := Hexdump E
|}.

End Sample.

(** * Properties *)

(** Membership in an explicit list of distinct constructors. *)
Ltac not_in_list :=
  let Hin := fresh "Hin" in
  intros Hin;
  repeat (apply elem_of_cons in Hin as [Hin|Hin]; [discriminate Hin|]);
  apply elem_of_nil in Hin; exact Hin.

(** Running the lifecycle monitor over an explicit trace. *)
Ltac run_protocol :=
  repeat (progress (cbn [snd protocol protocol_step];
                    rewrite ?bool_decide_eq_true_2 by reflexivity)).

(** Case analysis on membership in an explicit list; the cases that clash by
    constructor are closed. *)
Ltac in_explicit H :=
  repeat (apply elem_of_cons in H as [H|H]; [try discriminate H|]);
  try (apply elem_of_nil in H; contradiction).

Section TraceFacts.

Lemma results_of_app t1 t2 :
  results_of (t1 ++ t2) = results_of t1 ++ results_of t2.
Proof. apply omap_app. Qed.

Lemma errors_of_app t1 t2 :
  errors_of (t1 ++ t2) = errors_of t1 ++ errors_of t2.
Proof. apply omap_app. Qed.

Lemma service_calls_of_app t1 t2 :
  service_calls_of (t1 ++ t2) = service_calls_of t1 ++ service_calls_of t2.
Proof. apply omap_app. Qed.

Lemma string_app_nil_r (s : string) : s +:+ "" = s.
Proof.
  induction s as [|a s IH]; [reflexivity|].
  change (String a (s +:+ "") = String a s). f_equal. exact IH.
Qed.

Lemma string_app_assoc (s1 s2 s3 : string) :
  (s1 +:+ s2) +:+ s3 = s1 +:+ (s2 +:+ s3).
Proof.
  induction s1 as [|a s1 IH]; [reflexivity|].
  change (String a ((s1 +:+ s2) +:+ s3) = String a (s1 +:+ (s2 +:+ s3))).
  f_equal. exact IH.
Qed.

Lemma bind_ret_l {A B} (a : A) (k : A -> M B) : bind (Ret a, []) k = k a.
Proof. unfold bind. destruct (k a) as [ob t]. reflexivity. Qed.

Lemma bind_fst_snd {A B} (m : M A) (k : A -> M B) :
  bind m k =
  match fst m with
  | Ret a => (fst (k a), snd m ++ snd (k a))
  | Raise e => (Raise e, snd m)
  end.
Proof.
  destruct m as [[a|e] t]; simpl; [destruct (k a); reflexivity | reflexivity].
Qed.

End TraceFacts.

Section ScanLoop.

Variable E : collaborators.

(** One turn of the loop either skips the tuple or reports it. *)
Lemma scan_record_cases r matched :
  (scan_record E r matched = (Ret matched, []))
  \/ (foreign_process E r /\ (rule (hit r) ∉ matched)
      /\ scan_record E r matched
         = (Ret (matched ++ [rule (hit r)]), report_events E r)).
Proof.
  unfold scan_record, report_events, foreign_process.
  destruct (o r) as [ob|] eqn:Ho; [|left; reflexivity].
  destruct (String.eqb (obj_name ob) "_EPROCESS") eqn:Hn; [|left; reflexivity].
  unfold py_int.
  destruct (UniqueProcessId ob =? getpid E) eqn:Hp; [left; reflexivity|].
  destruct (bool_decide (rule (hit r) ∈ matched)) eqn:Hm; [left; reflexivity|].
  right. split; [|split].
  - exists ob. repeat split.
    + apply String.eqb_eq, Hn.
    + apply Z.eqb_neq, Hp.
  - apply bool_decide_eq_false in Hm. exact Hm.
  - reflexivity.
Qed.

Lemma scan_record_self r ob matched :
  o r = Some ob -> UniqueProcessId ob = getpid E ->
  scan_record E r matched = (Ret matched, []).
Proof.
  intros Ho Hp. unfold scan_record, py_int. rewrite Ho, Hp, Z.eqb_refl.
  destruct (String.eqb (obj_name ob) "_EPROCESS"); reflexivity.
Qed.

Lemma scan_record_report r ob matched :
  o r = Some ob -> obj_name ob = "_EPROCESS" ->
  UniqueProcessId ob <> getpid E -> rule (hit r) ∉ matched ->
  scan_record E r matched
  = (Ret (matched ++ [rule (hit r)]), report_events E r).
Proof.
  intros Ho Hn Hp Hm. unfold scan_record, report_events, py_int.
  rewrite Ho, Hn. cbn [String.eqb Ascii.eqb Bool.eqb].
  apply Z.eqb_neq in Hp. rewrite Hp.
  rewrite (bool_decide_eq_false_2 _ Hm). reflexivity.
Qed.

Lemma scan_record_repeat r matched :
  rule (hit r) ∈ matched -> scan_record E r matched = (Ret matched, []).
Proof.
  intros Hm. unfold scan_record. rewrite (bool_decide_eq_true_2 _ Hm).
  destruct (o r) as [ob|]; [|reflexivity].
  destruct (String.eqb (obj_name ob) "_EPROCESS"); [|reflexivity].
  destruct (py_int (UniqueProcessId ob) =? py_int (getpid E)); reflexivity.
Qed.

(** The loop as a whole: the trace is the reports of a sub-sequence [rs] of
    the stream, all about processes other than the scanner, with pairwise
    different rules that are also new with respect to [matched]; the loop
    ends as the generator does. *)
Lemma scan_loop_spec its stop matched :
  NoDup matched ->
  exists rs,
    snd (scan_loop E its stop matched) = rs ≫= report_events E
    /\ sublist rs its
    /\ Forall (foreign_process E) rs
    /\ NoDup (matched ++ map (fun r => rule (hit r)) rs)
    /\ fst (scan_loop E its stop matched)
       = match stop with
         | None => Ret (matched ++ map (fun r => rule (hit r)) rs)
         | Some e => Raise e
         end.
Proof.
  revert matched. induction its as [|r rest IH]; intros matched Hnd.
  - exists []. simpl. rewrite app_nil_r.
    repeat split; try constructor; try assumption.
    + destruct stop; reflexivity.
    + destruct stop; reflexivity.
  - cbn [scan_loop].
    destruct (scan_record_cases r matched) as [Hskip | (Hfp & Hnew & Hrep)].
    + rewrite Hskip, bind_ret_l.
      destruct (IH matched Hnd) as (rs & Ht & Hsub & Hall & Hnd' & Ho).
      exists rs. repeat split; try assumption.
      apply sublist_cons, Hsub.
    + rewrite Hrep.
      assert (Hnd1 : NoDup (matched ++ [rule (hit r)])).
      { apply NoDup_app. repeat split; [assumption| |apply NoDup_singleton].
        intros x Hx Hx'. apply list_elem_of_singleton in Hx'. subst x.
        contradiction. }
      destruct (IH _ Hnd1) as (rs & Ht & Hsub & Hall & Hnd' & Ho).
      exists (r :: rs). rewrite bind_fst_snd. cbn [fst snd].
      rewrite <- app_assoc in Hnd', Ho. cbn [app] in Hnd', Ho.
      repeat split.
      * cbn [fst snd]. rewrite Ht. reflexivity.
      * apply sublist_skip, Hsub.
      * constructor; assumption.
      * exact Hnd'.
      * cbn [fst]. rewrite Ho. destruct stop; reflexivity.
Qed.

End ScanLoop.

Section ScanFacts.

Variable E : collaborators.

Lemma results_of_report r :
  foreign_process E r ->
  exists ob, o r = Some ob
    /\ results_of (report_events E r)
       = [result_dict (hit r) (UniqueProcessId ob) (InheritedFromUniqueProcessId ob)].
Proof.
  intros (ob & Ho & _ & _). exists ob. split; [exact Ho|].
  unfold report_events. rewrite Ho. reflexivity.
Qed.

Lemma rule_of_result_dict h pid ppid :
  rule_of (result_dict h pid ppid) = Some (PStr (rule h)).
Proof. reflexivity. Qed.

Lemma pid_of_result_dict h pid ppid :
  pid_of (result_dict h pid ppid) = Some (PInt pid).
Proof. reflexivity. Qed.

Lemma dom_result_dict h pid ppid :
  dom (result_dict h pid ppid) = result_keys.
Proof.
  unfold result_dict, result_keys. cbn [list_to_map foldr uncurry fst snd].
  rewrite !dom_insert_L, dom_empty_L. set_solver.
Qed.

Lemma results_of_reports rs :
  Forall (foreign_process E) rs ->
  List.length (results_of (rs ≫= report_events E)) = List.length rs
  /\ rule_of <$> results_of (rs ≫= report_events E)
     = (fun r => Some (PStr (rule (hit r)))) <$> rs
  /\ Forall (fun m => exists pid, pid_of m = Some (PInt pid) /\ pid <> getpid E)
       (results_of (rs ≫= report_events E)).
Proof.
  induction 1 as [|r rs Hr _ (IHl & IHr & IHp)]; [repeat split; constructor|].
  rewrite bind_cons, results_of_app.
  destruct (results_of_report r Hr) as (ob & Ho & ->).
  destruct Hr as (ob' & Ho' & _ & Hpid). rewrite Ho in Ho'. injection Ho' as <-.
  cbn [app List.length fmap list_fmap]. repeat split.
  - rewrite IHl. reflexivity.
  - rewrite rule_of_result_dict. f_equal. exact IHr.
  - constructor; [|exact IHp]. rewrite pid_of_result_dict. eauto.
Qed.

(** The evidence text is one line per hexdump row: the hex bytes, a blank,
    the printable characters, a line feed. *)
Lemma render_rule_data_lines v :
  render_rule_data E v
  = String.concat ""
      (map (fun row : Z * string * list string =>
              let '(_, hexdata, translated_data) := row in
              hexdata +:+ " " +:+ String.concat "" translated_data +:+ newline)
         (Hexdump E v)).
Proof.
  unfold render_rule_data.
  assert (Hcons : forall x xs, String.concat "" (x :: xs) = x +:+ String.concat "" xs).
  { intros x [|y ys]; cbn [String.concat]; [|reflexivity].
    symmetry. apply string_app_nil_r. }
  assert (Hfold : forall rows acc,
             fold_left
               (fun rule_data (row : Z * string * list string) =>
                  let '(_, hexdata, translated_data) := row in
                  rule_data +:+ (hexdata +:+ " "
                                   +:+ String.concat "" translated_data +:+ newline))
               rows acc
             = acc +:+ String.concat ""
                 (map (fun row : Z * string * list string =>
                         let '(_, hexdata, translated_data) := row in
                         hexdata +:+ " " +:+ String.concat "" translated_data
                           +:+ newline) rows)).
  { induction rows as [|[[off hexdata] translated_data] rows IH]; intros acc.
    - cbn. symmetry. apply string_app_nil_r.
    - cbn [fold_left map]. rewrite IH, Hcons, string_app_assoc. reflexivity. }
  apply (Hfold (Hexdump E v) "").
Qed.

(** [scan] unfolded along its three ways out before the loop. *)
Lemma scan_eq sp pn :
  scan E sp pn =
  match signature_path E with
  | None =>
      (Raise (DetectorError "Unable to find a valid Yara signatures file!"),
       probe_trace E)
  | Some yp =>
      let c := mkConf pn sp yp in
      match load_as E c with
      | Some e => (Raise e, load_trace E c)
      | None =>
          let lp := scan_loop E (items (yara_calculate E c))
                      (ending (yara_calculate E c)) [] in
          (match fst lp with
           | Ret matched => Ret (0 <? List.length matched)%nat
           | Raise e => Raise e
           end,
           load_trace E c ++ [YaraCalculate c] ++ snd lp)
      end
  end.
Proof.
  unfold scan, signature_path, load_trace, probe_trace, os_path_exists,
    get_address_space, log, emit, ret, raise.
  fold (cwd_signatures E). fold (packaged_signatures E).
  destruct (path_exists E (cwd_signatures E)); cbn;
    [|destruct (path_exists E (packaged_signatures E)); cbn; [|reflexivity]].
  all: destruct (load_as E _) as [e|]; cbn; [reflexivity|].
  all: destruct (scan_loop E _ _ []) as [[[|rule0 matched]|e] tl]; cbn.
  all: rewrite ?app_nil_r; reflexivity.
Qed.

Lemma reports_quiet rs :
  errors_of (rs ≫= report_events E) = []
  /\ service_calls_of (rs ≫= report_events E) = [].
Proof.
  induction rs as [|r rs [IH1 IH2]]; [split; reflexivity|].
  rewrite bind_cons, errors_of_app, service_calls_of_app, IH1, IH2.
  unfold report_events. destruct (o r); split; reflexivity.
Qed.

Lemma load_trace_quiet c :
  results_of (load_trace E c) = [] /\ errors_of (load_trace E c) = []
  /\ service_calls_of (load_trace E c) = [].
Proof.
  unfold load_trace, probe_trace.
  destruct (path_exists E (cwd_signatures E)); repeat split; reflexivity.
Qed.

(** The whole of [scan]: a prefix that touches neither queue nor the
    service, then the reports of the loop. *)
Lemma scan_spec sp pn :
  exists pre rs,
    snd (scan E sp pn) = pre ++ (rs ≫= report_events E)
    /\ results_of pre = [] /\ errors_of pre = [] /\ service_calls_of pre = []
    /\ Forall (foreign_process E) rs
    /\ NoDup (map (fun r => rule (hit r)) rs)
    /\ (rs <> [] ->
        exists yp, signature_path E = Some yp
                   /\ sublist rs (items (yara_calculate E (mkConf pn sp yp))))
    /\ (forall b, fst (scan E sp pn) = Ret b ->
        exists yp,
          signature_path E = Some yp
          /\ fst (scan_loop E (items (yara_calculate E (mkConf pn sp yp)))
                    (ending (yara_calculate E (mkConf pn sp yp))) [])
             = Ret (map (fun r => rule (hit r)) rs)
          /\ b = (0 <? List.length (map (fun r => rule (hit r)) rs))%nat).
Proof.
  rewrite scan_eq.
  destruct (signature_path E) as [yp|] eqn:Hsig.
  - cbv zeta. set (c := mkConf pn sp yp).
    destruct (load_trace_quiet c) as (Hq1 & Hq2 & Hq3).
    destruct (load_as E c) as [e|].
    + exists (load_trace E c), []. cbn [fst snd].
      change ([] ≫= report_events E) with (@nil event). rewrite app_nil_r.
      repeat split; try assumption; try constructor; [congruence|discriminate].
    + destruct (scan_loop_spec E (items (yara_calculate E c))
                  (ending (yara_calculate E c)) [] (NoDup_nil_2))
        as (rs & Ht & Hsub & Hall & Hnd & Ho).
      cbn [app] in Hnd, Ho.
      exists (load_trace E c ++ [YaraCalculate c]), rs. cbn [fst snd].
      rewrite Ht, Ho, <- app_assoc.
      repeat split; try assumption.
      * rewrite results_of_app, Hq1. reflexivity.
      * rewrite errors_of_app, Hq2. reflexivity.
      * rewrite service_calls_of_app, Hq3. reflexivity.
      * intros _. exists yp. split; [reflexivity|exact Hsub].
      * intros b Hb. exists yp. split; [reflexivity|].
        change (mkConf pn sp yp) with c.
        destruct (ending (yara_calculate E c)); [discriminate|].
        injection Hb as <-. split; [exact Ho|reflexivity].
  - exists (probe_trace E), []. cbn [fst snd].
      change ([] ≫= report_events E) with (@nil event). rewrite app_nil_r.
    unfold probe_trace.
    repeat split; try constructor; try congruence; try discriminate.
    all: destruct (path_exists E (cwd_signatures E)); reflexivity.
Qed.

(** Seen from the queues, [scan] only ever adds result messages. *)
Lemma scan_quiet sp pn :
  errors_of (snd (scan E sp pn)) = []
  /\ service_calls_of (snd (scan E sp pn)) = [].
Proof.
  destruct (scan_spec sp pn) as (pre & rs & -> & _ & He & Hs & _).
  destruct (reports_quiet rs) as [He' Hs'].
  rewrite errors_of_app, service_calls_of_app, He, Hs, He', Hs'.
  split; reflexivity.
Qed.

End ScanFacts.

Section MainFacts.

Variable E : collaborators.

Lemma teardown_eq s :
  teardown E s =
  (Ret tt,
   match service_stop E s with
   | Some msg =>
       [ServiceCall s Stop;
        Log ERROR "Unable to stop winpmem service: %s" [PStr msg]]
   | None =>
       match service_delete E s with
       | Some msg =>
           [ServiceCall s Stop; ServiceCall s Delete;
            Log ERROR "Unable to stop winpmem service: %s" [PStr msg]]
       | None =>
           [ServiceCall s Stop; ServiceCall s Delete;
            Log INFO "Service stopped" []]
       end
   end).
Proof.
  unfold teardown, try_except_DetectorError, service_call, bind, emit, log,
    emit, ret, raise.
  destruct (service_stop E s); [reflexivity|].
  destruct (service_delete E s); reflexivity.
Qed.

Lemma teardown_quiet s :
  results_of (snd (teardown E s)) = [] /\ errors_of (snd (teardown E s)) = [].
Proof.
  rewrite teardown_eq. cbn [snd].
  destruct (service_stop E s); [split; reflexivity|].
  destruct (service_delete E s); split; reflexivity.
Qed.

Lemma teardown_calls s :
  service_calls_of (snd (teardown E s))
  = Stop :: match service_stop E s with Some _ => [] | None => [Delete] end.
Proof.
  rewrite teardown_eq. cbn [snd].
  destruct (service_stop E s); [reflexivity|].
  destruct (service_delete E s); reflexivity.
Qed.

(** Line 117: no usable profile. *)
Lemma main_no_profile :
  truthy (cfg_profile E) = false ->
  main E
  = (Ret tt,
     [Log ERROR "Unsupported version of Windows, can't select a profile" [];
      PutError UNSUPPORTED_WINDOWS]).
Proof. intros H. unfold main. rewrite H. reflexivity. Qed.

(** Line 126: no driver. *)
Lemma main_no_driver :
  truthy (cfg_profile E) = true ->
  cfg_get_driver_path E = false ->
  main E
  = (Ret tt,
     [Log INFO ("Selected Profile Name: " +:+ default "" (cfg_profile E)) [];
      Log ERROR "Unable to find a proper winpmem driver" [];
      PutError NO_DRIVER]).
Proof. intros H1 H2. unfold main. rewrite H1, H2. reflexivity. Qed.

(** Lines 134-141: [create] raises. *)
Lemma main_create_fails msg :
  truthy (cfg_profile E) = true ->
  cfg_get_driver_path E = true ->
  service_create E (the_service E) = Some msg ->
  main E
  = (Ret tt,
     [Log INFO ("Selected Profile Name: " +:+ default "" (cfg_profile E)) [];
      Log INFO ("Selected Driver: " +:+ cfg_driver E) [];
      ServiceCall (the_service E) Create;
      Log CRITICAL "Unable to start winpmem service: %s" [PStr msg];
      PutError SERVICE_NO_START]).
Proof.
  intros H1 H2 H3. unfold main. rewrite H1, H2. cbn [negb].
  fold (the_service E). unfold service_call at 1. rewrite H3. reflexivity.
Qed.

(** Lines 134-141: [create] returns, [start] raises. *)
Lemma main_start_fails msg :
  truthy (cfg_profile E) = true ->
  cfg_get_driver_path E = true ->
  service_create E (the_service E) = None ->
  service_start E (the_service E) = Some msg ->
  main E
  = (Ret tt,
     [Log INFO ("Selected Profile Name: " +:+ default "" (cfg_profile E)) [];
      Log INFO ("Selected Driver: " +:+ cfg_driver E) [];
      ServiceCall (the_service E) Create;
      ServiceCall (the_service E) Start;
      Log CRITICAL "Unable to start winpmem service: %s" [PStr msg];
      PutError SERVICE_NO_START]).
Proof.
  intros H1 H2 H3 H4. unfold main. rewrite H1, H2. cbn [negb].
  fold (the_service E). unfold service_call at 1 2. rewrite H3, H4. reflexivity.
Qed.

(** Lines 143-165: the service is up; what follows depends on how the scan
    step ends. *)
Lemma main_started :
  service_started E ->
  main E =
  match scan_step E with
  | (Ret _, st) =>
      (Ret tt,
       startup_trace E ++ st ++ [Log INFO "Scanning finished" []]
         ++ snd (teardown E (the_service E))
         ++ [Log INFO "Analysis finished" []])
  | (Raise (DetectorError msg), st) =>
      (Ret tt,
       startup_trace E ++ st
         ++ [Log CRITICAL "Yara scanning failed: %s" [PStr msg];
             PutError SCAN_FAILED]
         ++ snd (teardown E (the_service E))
         ++ [Log INFO "Analysis finished" []])
  | (Raise (ForeignError c), st) =>
      (Raise (ForeignError c), startup_trace E ++ st)
  end.
Proof.
  intros (H1 & H2 & H3 & H4). unfold main. rewrite H1, H2. cbn [negb].
  fold (the_service E). fold (scan_step E). fold (teardown E (the_service E)).
  unfold service_call at 1 2. rewrite H3, H4.
  rewrite (teardown_eq (the_service E)). unfold startup_trace.
  destruct (scan_step E) as [[b|[msg|c]] st]; cbn.
  - rewrite <- !app_assoc. reflexivity.
  - rewrite <- !app_assoc. reflexivity.
  - reflexivity.
Qed.

End MainFacts.

Section RunFacts.

Variable E : collaborators.

(** How far a run gets before the scan step. *)
Lemma main_stages :
  truthy (cfg_profile E) = false
  \/ (truthy (cfg_profile E) = true /\ cfg_get_driver_path E = false)
  \/ (truthy (cfg_profile E) = true /\ cfg_get_driver_path E = true
      /\ exists msg, service_create E (the_service E) = Some msg)
  \/ (truthy (cfg_profile E) = true /\ cfg_get_driver_path E = true
      /\ service_create E (the_service E) = None
      /\ exists msg, service_start E (the_service E) = Some msg)
  \/ service_started E.
Proof.
  unfold service_started.
  destruct (truthy (cfg_profile E)); [|tauto].
  destruct (cfg_get_driver_path E); [|tauto].
  destruct (service_create E (the_service E)) as [m|]; [eauto 10|].
  destruct (service_start E (the_service E)) as [m|]; [eauto 10|tauto].
Qed.

(** Result messages only ever come from the scan step. *)
Lemma main_results :
  results_of (snd (main E)) = []
  \/ (service_started E
      /\ results_of (snd (main E)) = results_of (snd (scan_step E))).
Proof.
  destruct main_stages as [H|[[H1 H2]|[(H1 & H2 & m & H3)|[(H1 & H2 & H3 & m & H4)|H]]]].
  - left. rewrite (main_no_profile E H). reflexivity.
  - left. rewrite (main_no_driver E H1 H2). reflexivity.
  - left. rewrite (main_create_fails E m H1 H2 H3). reflexivity.
  - left. rewrite (main_start_fails E m H1 H2 H3 H4). reflexivity.
  - right. split; [exact H|]. rewrite (main_started E H).
    destruct (teardown_quiet E (the_service E)) as [Hq _].
    destruct (scan_step E) as [[b|[msg|c]] st]; cbn [snd];
      rewrite ?results_of_app, ?Hq, ?app_nil_r; reflexivity.
Qed.

End RunFacts.

(** * The dedup and self-exclusion invariants, and the outcome of [scan] *)

(** C2.  In every run of [scan], and so in every run of [main], no two
    messages put on the result queue carry the same rule.  When the signature
    file is found, the image loads and Yara yields exactly two hits of one rule
    in two different processes, neither of them the scanner, one message is
    put, with the pid and ppid of the first hit, and [scan] returns [True]. *)
Theorem C2_dedup_by_rule (E : collaborators) (sp pn : string) :
  NoDup (rule_of <$> results_of (snd (scan E sp pn)))
  /\ NoDup (rule_of <$> results_of (snd (main E)))
  /\ (forall yp r1 r2 ob1 ob2,
        signature_path E = Some yp ->
        load_as E (mkConf pn sp yp) = None ->
        yara_calculate E (mkConf pn sp yp) = mkStream [r1; r2] None ->
        o r1 = Some ob1 -> o r2 = Some ob2 ->
        obj_name ob1 = "_EPROCESS" -> obj_name ob2 = "_EPROCESS" ->
        UniqueProcessId ob1 <> getpid E -> UniqueProcessId ob2 <> getpid E ->
        UniqueProcessId ob1 <> UniqueProcessId ob2 ->
        rule (hit r1) = rule (hit r2) ->
        fst (scan E sp pn) = Ret true
        /\ results_of (snd (scan E sp pn))
           = [result_dict (hit r1) (UniqueProcessId ob1)
                (InheritedFromUniqueProcessId ob1)]).
Proof.
  assert (Hscan : forall sp' pn',
             NoDup (rule_of <$> results_of (snd (scan E sp' pn')))).
  { intros sp' pn'.
    destruct (scan_spec E sp' pn') as (pre & rs & -> & Hpre & _ & _ & Hall & Hnd & _).
    rewrite results_of_app, Hpre. cbn [app].
    destruct (results_of_reports E rs Hall) as (_ & -> & _).
    change ((fun r => Some (PStr (rule (hit r)))) <$> rs)
      with ((fun x => Some (PStr x)) ∘ (fun r => rule (hit r)) <$> rs).
    rewrite list_fmap_compose. apply NoDup_fmap_2; [|exact Hnd].
    intros x y Hxy. congruence. }
  split; [apply Hscan|]. split.
  - destruct (main_results E) as [-> | [_ ->]]; [constructor|apply Hscan].
  - intros yp r1 r2 ob1 ob2 Hsig Hload Hy Ho1 Ho2 Hn1 Hn2 Hp1 Hp2 _ Hrule.
    rewrite scan_eq, Hsig. cbv zeta. rewrite Hload, Hy.
    cbn [items ending scan_loop].
    rewrite (scan_record_report E r1 ob1 [] Ho1 Hn1 Hp1) by apply not_elem_of_nil.
    rewrite bind_fst_snd. cbn [fst snd app].
    rewrite (scan_record_repeat E r2 [rule (hit r1)])
      by (rewrite Hrule; apply list_elem_of_singleton; reflexivity).
    rewrite bind_ret_l. cbn [fst snd]. split; [reflexivity|].
    rewrite app_nil_r, !results_of_app.
    destruct (load_trace_quiet E (mkConf pn sp yp)) as (-> & _).
    unfold report_events. rewrite Ho1. reflexivity.
Qed.

(** C2, on the sample machine whose Yara stream holds the rule FinSpy twice,
    in processes 4 and 8. *)
Lemma C2_dedup_by_rule_witness :
  NoDup (rule_of <$> results_of (snd (scan_step (Sample.healthy Sample.same_rule_twice))))
  /\ fst (scan_step (Sample.healthy Sample.same_rule_twice)) = Ret true
  /\ results_of (snd (scan_step (Sample.healthy Sample.same_rule_twice)))
     = [result_dict Sample.finspy 4 0].
Proof.
  pose proof (C2_dedup_by_rule (Sample.healthy Sample.same_rule_twice)
                "//./pmem" "Win7SP1x64") as (H1 & _ & H3).
  split; [exact H1|].
  apply (H3 "C:/detekt/signatures.yar"
            (mkMatch (Some (Sample.process 4 0)) 4096 Sample.finspy "MZ")
            (mkMatch (Some (Sample.process 8 4)) 8192 Sample.finspy "PE")
            (Sample.process 4 0) (Sample.process 8 4));
    try reflexivity; cbn; lia.
Defined.

(** C3.  No message put on the result queue, by [scan] or by [main], carries
    the scanner's own pid; a tuple whose process id is the scanner's own
    leaves the list of matched rules as it was and performs no effect at
    all. *)
Theorem C3_self_exclusion (E : collaborators) :
  (forall sp pn m, m ∈ results_of (snd (scan E sp pn)) ->
     exists pid, pid_of m = Some (PInt pid) /\ pid <> getpid E)
  /\ (forall m, m ∈ results_of (snd (main E)) ->
        exists pid, pid_of m = Some (PInt pid) /\ pid <> getpid E)
  /\ (forall r ob matched,
        o r = Some ob -> UniqueProcessId ob = getpid E ->
        scan_record E r matched = (Ret matched, [])).
Proof.
  assert (Hscan : forall sp pn m, m ∈ results_of (snd (scan E sp pn)) ->
             exists pid, pid_of m = Some (PInt pid) /\ pid <> getpid E).
  { intros sp pn m.
    destruct (scan_spec E sp pn) as (pre & rs & -> & Hpre & _ & _ & Hall & _).
    rewrite results_of_app, Hpre. cbn [app].
    destruct (results_of_reports E rs Hall) as (_ & _ & Hpid).
    rewrite Forall_forall in Hpid. apply Hpid. }
  split; [exact Hscan|]. split.
  - intros m. destruct (main_results E) as [-> | [_ ->]].
    + intros Hm. apply elem_of_nil in Hm. contradiction.
    + apply Hscan.
  - intros r ob matched. apply scan_record_self.
Qed.

(** C3, on the sample machine whose first hit lies in the scanner's own
    process (pid 1000). *)
Lemma C3_self_exclusion_witness :
  (exists pid, pid_of (result_dict Sample.blackshades 8 4) = Some (PInt pid)
               /\ pid <> 1000)
  /\ scan_record (Sample.healthy Sample.self_then_other)
       (mkMatch (Some (Sample.process 1000 4)) 4096 Sample.finspy "MZ") []
     = (Ret [], []).
Proof.
  pose proof (C3_self_exclusion (Sample.healthy Sample.self_then_other))
    as (H1 & _ & H3).
  split.
  - apply (H1 "//./pmem" "Win7SP1x64"). vm_compute.
    apply list_elem_of_singleton. reflexivity.
  - apply (H3 _ (Sample.process 1000 4)); reflexivity.
Defined.

(** C8.  Whenever [scan] returns, it returns [True] exactly when the list of
    matched rules it built is non-empty, which is exactly when it put at
    least one message on the result queue.  On an empty match stream (the
    signature file found, the image loaded) it returns [False] and puts
    nothing. *)
Theorem C8_scan_outcome (E : collaborators) (sp pn : string) :
  (forall b, fst (scan E sp pn) = Ret b ->
     exists yp matched,
       signature_path E = Some yp
       /\ fst (scan_loop E (items (yara_calculate E (mkConf pn sp yp)))
                 (ending (yara_calculate E (mkConf pn sp yp))) [])
          = Ret matched
       /\ (b = true <-> matched <> [])
       /\ (matched <> [] <-> results_of (snd (scan E sp pn)) <> []))
  /\ (forall yp,
        signature_path E = Some yp ->
        load_as E (mkConf pn sp yp) = None ->
        yara_calculate E (mkConf pn sp yp) = mkStream [] None ->
        fst (scan E sp pn) = Ret false
        /\ results_of (snd (scan E sp pn)) = []).
Proof.
  split.
  - intros b Hb.
    destruct (scan_spec E sp pn)
      as (pre & rs & Ht & Hpre & _ & _ & Hall & _ & _ & Hret).
    destruct (Hret b Hb) as (yp & Hsig & Hloop & ->).
    exists yp, (map (fun r => rule (hit r)) rs).
    split; [exact Hsig|]. split; [exact Hloop|].
    rewrite Ht, results_of_app, Hpre. cbn [app].
    destruct (results_of_reports E rs Hall) as (Hlen & _ & _).
    destruct rs as [|r rs']; cbn [map List.length Nat.ltb Nat.leb].
    + cbn. split; split; intros; congruence.
    + destruct (results_of ((r :: rs') ≫= report_events E)); [discriminate Hlen|].
      split; split; intros; congruence.
  - intros yp Hsig Hload Hy.
    rewrite scan_eq, Hsig. cbv zeta. rewrite Hload, Hy.
    cbn [items ending scan_loop ret fst snd List.length Nat.ltb Nat.leb].
    split; [reflexivity|].
    rewrite app_nil_r, results_of_app.
    destruct (load_trace_quiet E (mkConf pn sp yp)) as (-> & _). reflexivity.
Qed.

(** C8, on the sample machine with an empty match stream. *)
Lemma C8_scan_outcome_witness :
  fst (scan_step (Sample.healthy Sample.no_matches)) = Ret false
  /\ results_of (snd (scan_step (Sample.healthy Sample.no_matches))) = [].
Proof.
  pose proof (C8_scan_outcome (Sample.healthy Sample.no_matches)
                "//./pmem" "Win7SP1x64") as [_ H].
  apply (H "C:/detekt/signatures.yar"); reflexivity.
Defined.

(** * What a result message holds *)

(** C9 as stated fails: two runs that differ only in the address and the
    value of their single hit, hence in the evidence text, put the very same
    message on the result queue, whose keys are the five of [result_keys]. *)
Lemma C9_counterexample :
  let Ea := Sample.healthy (Sample.one_hit 4096 "MZ") in
  let Eb := Sample.healthy (Sample.one_hit 8192 "PE") in
  render_rule_data Ea "MZ" <> render_rule_data Eb "PE"
  /\ results_of (snd (scan_step Ea)) = results_of (snd (scan_step Eb))
  /\ results_of (snd (scan_step Ea)) = [result_dict Sample.finspy 4 0]
  /\ dom (result_dict Sample.finspy 4 0) = result_keys
  /\ result_dict Sample.finspy 4 0 !! "address" = None
  /\ forall v, v ∈ (map_to_list (result_dict Sample.finspy 4 0)).*2 ->
       v <> PInt 4096 /\ v <> PStr (render_rule_data Ea "MZ").
Proof.
  cbv zeta. split; [vm_compute; discriminate|].
  split; [vm_compute; reflexivity|].
  split; [vm_compute; reflexivity|].
  split; [apply dom_result_dict|].
  split; [reflexivity|].
  intros v Hv. apply list_elem_of_fmap in Hv as ([k v'] & -> & Hkv).
  apply elem_of_map_to_list in Hkv. cbn [snd].
  unfold result_dict in Hkv. cbn [list_to_map foldr uncurry fst snd] in Hkv.
  repeat (apply lookup_insert_Some in Hkv as [[_ <-]|[_ Hkv]];
          [vm_compute; split; discriminate|]).
  rewrite lookup_empty in Hkv. discriminate.
Qed.

(** C9, amended.  Every message put on the result queue is the dictionary of
    one tuple of the Yara stream that refers to a process: it has exactly the
    keys rule, detection, description, pid and ppid, with the tuple's rule,
    the two [meta] entries (or [None]) and the process's two ids.  The
    address and the evidence text go to the log only: the same run holds a
    warning record with rule, pid, ppid, address and the rendered rows. *)
Theorem C9_message_fields (E : collaborators) (sp pn : string) (m : message) :
  m ∈ results_of (snd (scan E sp pn)) ->
  dom m = result_keys
  /\ exists yp r ob,
       signature_path E = Some yp
       /\ r ∈ items (yara_calculate E (mkConf pn sp yp))
       /\ o r = Some ob /\ obj_name ob = "_EPROCESS"
       /\ m !! "rule" = Some (PStr (rule (hit r)))
       /\ m !! "detection" = Some (default PNone (meta (hit r) !! "detection"))
       /\ m !! "description" = Some (default PNone (meta (hit r) !! "description"))
       /\ m !! "pid" = Some (PInt (UniqueProcessId ob))
       /\ m !! "ppid" = Some (PInt (InheritedFromUniqueProcessId ob))
       /\ Log WARNING
            ("Matched: %s, PID: %s, PPID: %s, Address: %s, Value:"
               +:+ newline +:+ newline +:+ "%s")
            [PStr (rule (hit r)); PInt (UniqueProcessId ob);
             PInt (InheritedFromUniqueProcessId ob); PInt (address r);
             PStr (render_rule_data E (value r))]
          ∈ snd (scan E sp pn).
Proof.
  destruct (scan_spec E sp pn)
    as (pre & rs & Ht & Hpre & _ & _ & Hall & _ & Hsub & _).
  rewrite Ht, results_of_app, Hpre. cbn [app]. intros Hm.
  assert (Hex : exists r, r ∈ rs /\ m ∈ results_of (report_events E r)).
  { clear -Hm. induction rs as [|r rs IH]; [apply elem_of_nil in Hm; contradiction|].
    rewrite bind_cons, results_of_app in Hm. apply elem_of_app in Hm as [Hm|Hm].
    - exists r. split; [left|exact Hm].
    - destruct (IH Hm) as (r' & Hr' & Hm'). exists r'. split; [right; exact Hr'|exact Hm']. }
  destruct Hex as (r & Hr & Hmr).
  rewrite Forall_forall in Hall. pose proof (Hall r Hr) as Hfp.
  destruct (results_of_report E r Hfp) as (ob & Ho & Hres).
  rewrite Hres in Hmr. apply list_elem_of_singleton in Hmr. subst m.
  split; [apply dom_result_dict|].
  assert (Hne : rs <> []) by (intros ->; apply elem_of_nil in Hr; contradiction).
  destruct (Hsub Hne) as (yp & Hsig & Hsl).
  exists yp, r, ob. destruct Hfp as (ob' & Ho' & Hn & _).
  rewrite Ho in Ho'. injection Ho' as <-.
  split; [exact Hsig|]. split; [eapply elem_of_sublist; eassumption|].
  split; [exact Ho|]. split; [exact Hn|].
  repeat (split; [reflexivity|]).
  apply elem_of_app. right. apply list_elem_of_bind. exists r. split; [|exact Hr].
  unfold report_events. rewrite Ho. left.
Qed.

(** C9 amended, on the sample machine with one hit at address 4096. *)
Lemma C9_message_fields_witness :
  dom (result_dict Sample.finspy 4 0) = result_keys
  /\ exists yp r ob,
       signature_path (Sample.healthy (Sample.one_hit 4096 "MZ")) = Some yp
       /\ r ∈ items (yara_calculate (Sample.healthy (Sample.one_hit 4096 "MZ"))
                       (mkConf "Win7SP1x64" "//./pmem" yp))
       /\ o r = Some ob /\ obj_name ob = "_EPROCESS"
       /\ result_dict Sample.finspy 4 0 !! "rule" = Some (PStr (rule (hit r)))
       /\ result_dict Sample.finspy 4 0 !! "detection"
          = Some (default PNone (meta (hit r) !! "detection"))
       /\ result_dict Sample.finspy 4 0 !! "description"
          = Some (default PNone (meta (hit r) !! "description"))
       /\ result_dict Sample.finspy 4 0 !! "pid" = Some (PInt (UniqueProcessId ob))
       /\ result_dict Sample.finspy 4 0 !! "ppid"
          = Some (PInt (InheritedFromUniqueProcessId ob))
       /\ Log WARNING
            ("Matched: %s, PID: %s, PPID: %s, Address: %s, Value:"
               +:+ newline +:+ newline +:+ "%s")
            [PStr (rule (hit r)); PInt (UniqueProcessId ob);
             PInt (InheritedFromUniqueProcessId ob); PInt (address r);
             PStr (render_rule_data (Sample.healthy (Sample.one_hit 4096 "MZ"))
                     (value r))]
          ∈ snd (scan (Sample.healthy (Sample.one_hit 4096 "MZ"))
                   "//./pmem" "Win7SP1x64").
Proof.
  apply (C9_message_fields (Sample.healthy (Sample.one_hit 4096 "MZ"))
           "//./pmem" "Win7SP1x64" (result_dict Sample.finspy 4 0)).
  vm_compute. apply list_elem_of_singleton. reflexivity.
Defined.

(** * The orchestrator *)

Section Orchestrator.

Variable E : collaborators.

Lemma scan_signatures_missing sp pn :
  signatures_missing E ->
  scan E sp pn
  = (Raise (DetectorError "Unable to find a valid Yara signatures file!"),
     [PathExists (cwd_signatures E); PathExists (packaged_signatures E)]).
Proof.
  intros [H1 H2]. rewrite scan_eq. unfold signature_path, probe_trace.
  rewrite H1, H2. reflexivity.
Qed.

(** The error messages of a run that reached the scan step. *)
Lemma main_started_errors :
  service_started E ->
  errors_of (snd (main E))
  = match fst (scan_step E) with
    | Raise (DetectorError _) => [SCAN_FAILED]
    | _ => []
    end.
Proof.
  intros H. rewrite (main_started E H).
  destruct (scan_quiet E (cfg_service_path E) (default "" (cfg_profile E)))
    as [Hq _]. fold (scan_step E) in Hq.
  destruct (teardown_quiet E (the_service E)) as [_ Ht].
  destruct (scan_step E) as [[b|[msg|c]] st]; cbn [fst snd] in *;
    rewrite ?errors_of_app, ?Hq, ?Ht; reflexivity.
Qed.

(** The service calls of a run that reached the scan step. *)
Lemma main_started_calls :
  service_started E ->
  service_calls_of (snd (main E))
  = match fst (scan_step E) with
    | Raise (ForeignError _) => [Create; Start]
    | _ => [Create; Start; Stop]
             ++ match service_stop E (the_service E) with
                | Some _ => []
                | None => [Delete]
                end
    end.
Proof.
  intros H. rewrite (main_started E H).
  destruct (scan_quiet E (cfg_service_path E) (default "" (cfg_profile E)))
    as [_ Hq]. fold (scan_step E) in Hq.
  pose proof (teardown_calls E (the_service E)) as Ht.
  destruct (scan_step E) as [[b|[msg|c]] st]; cbn [fst snd] in *;
    rewrite ?service_calls_of_app, ?Hq, ?Ht, ?app_nil_r; reflexivity.
Qed.

End Orchestrator.

(** C1 as stated fails: on a machine where everything works but the signature
    file is at neither place, [create] and [start] are called before the first
    look for the file, the one message posted is [SCAN_FAILED], and [stop] and
    [delete] follow. *)
Lemma C1_counterexample :
  let E := Sample.machine false false None None Sample.no_matches in
  signatures_missing E
  /\ (exists pre post,
        snd (main E) = pre ++ PathExists (cwd_signatures E) :: post
        /\ service_calls_of pre = [Create; Start])
  /\ service_calls_of (snd (main E)) <> []
  /\ errors_of (snd (main E)) = [SCAN_FAILED].
Proof.
  cbv zeta. split; [split; reflexivity|]. split.
  - exists (startup_trace (Sample.machine false false None None Sample.no_matches)).
    eexists. split; [vm_compute; reflexivity|reflexivity].
  - split; [vm_compute; discriminate|vm_compute; reflexivity].
Qed.

(** C1, amended.  When the signature file is at neither place, [scan] raises
    [DetectorError] right after the two look-ups: no image is loaded, no match
    is read, nothing is put on the result queue.  In [main] this happens once
    the service has been created and started; the error is caught, exactly
    one message, [SCAN_FAILED], is posted, and the run goes on into the
    teardown. *)
Theorem C1_missing_signatures (E : collaborators) :
  signatures_missing E ->
  (forall sp pn,
     scan E sp pn
     = (Raise (DetectorError "Unable to find a valid Yara signatures file!"),
        [PathExists (cwd_signatures E); PathExists (packaged_signatures E)]))
  /\ (service_started E ->
      main E
      = (Ret tt,
         startup_trace E
           ++ [PathExists (cwd_signatures E); PathExists (packaged_signatures E)]
           ++ [Log CRITICAL "Yara scanning failed: %s"
                 [PStr "Unable to find a valid Yara signatures file!"];
               PutError SCAN_FAILED]
           ++ snd (teardown E (the_service E))
           ++ [Log INFO "Analysis finished" []])
      /\ errors_of (snd (main E)) = [SCAN_FAILED]
      /\ results_of (snd (main E)) = []
      /\ service_calls_of (snd (main E))
         = [Create; Start; Stop]
             ++ match service_stop E (the_service E) with
                | Some _ => []
                | None => [Delete]
                end).
Proof.
  intros Hmiss. split; [intros sp pn; apply scan_signatures_missing, Hmiss|].
  intros Hst.
  pose proof (scan_signatures_missing E (cfg_service_path E)
                (default "" (cfg_profile E)) Hmiss) as Hscan.
  fold (scan_step E) in Hscan.
  split; [rewrite (main_started E Hst), Hscan; reflexivity|].
  split; [rewrite (main_started_errors E Hst), Hscan; reflexivity|].
  split; [|rewrite (main_started_calls E Hst), Hscan; reflexivity].
  destruct (main_results E) as [H | [_ H]]; [exact H|].
  rewrite H, Hscan. reflexivity.
Qed.

(** C1 amended, on the sample machine without any signature file. *)
Lemma C1_missing_signatures_witness :
  errors_of (snd (main (Sample.machine false false None None Sample.no_matches)))
  = [SCAN_FAILED]
  /\ service_calls_of
       (snd (main (Sample.machine false false None None Sample.no_matches)))
     = [Create; Start; Stop; Delete].
Proof.
  destruct (C1_missing_signatures
              (Sample.machine false false None None Sample.no_matches))
    as [_ H]; [split; reflexivity|].
  destruct H as (_ & He & _ & Hc); [repeat split|].
  split; [exact He|exact Hc].
Defined.

(** C7.  When [create] returns and [start] raises, [main] posts exactly one
    message, [SERVICE_NO_START], and returns: the run consists of the two
    selection log lines, the two service calls, the critical log line and the
    message, so [scan] is never called, nothing is put on the result queue and
    no teardown is attempted. *)
Theorem C7_start_fails (E : collaborators) (msg : string) :
  truthy (cfg_profile E) = true ->
  cfg_get_driver_path E = true ->
  service_create E (the_service E) = None ->
  service_start E (the_service E) = Some msg ->
  main E
  = (Ret tt,
     [Log INFO ("Selected Profile Name: " +:+ default "" (cfg_profile E)) [];
      Log INFO ("Selected Driver: " +:+ cfg_driver E) [];
      ServiceCall (the_service E) Create;
      ServiceCall (the_service E) Start;
      Log CRITICAL "Unable to start winpmem service: %s" [PStr msg];
      PutError SERVICE_NO_START])
  /\ errors_of (snd (main E)) = [SERVICE_NO_START]
  /\ results_of (snd (main E)) = []
  /\ service_calls_of (snd (main E)) = [Create; Start]
  /\ (Log INFO "Starting yara scanner..." [] ∉ snd (main E))
  /\ (forall p, PathExists p ∉ snd (main E))
  /\ (forall c, (LoadAs c ∉ snd (main E)) /\ (YaraCalculate c ∉ snd (main E))).
Proof.
  intros H1 H2 H3 H4. rewrite (main_start_fails E msg H1 H2 H3 H4). cbn [snd].
  split; [reflexivity|]. split; [reflexivity|]. split; [reflexivity|].
  split; [reflexivity|].
  assert (Hnot : forall ev,
             match ev with
             | PathExists _ | LoadAs _ | YaraCalculate _ => True
             | Log INFO f _ => f = "Starting yara scanner..."
             | _ => False
             end ->
             ev ∉ [Log INFO ("Selected Profile Name: " +:+ default "" (cfg_profile E)) [];
                   Log INFO ("Selected Driver: " +:+ cfg_driver E) [];
                   ServiceCall (the_service E) Create;
                   ServiceCall (the_service E) Start;
                   Log CRITICAL "Unable to start winpmem service: %s" [PStr msg];
                   PutError SERVICE_NO_START]).
  { intros ev Hev Hin.
    repeat (apply elem_of_cons in Hin as [-> | Hin];
            [first [contradiction | discriminate Hev]|]).
    apply elem_of_nil in Hin. exact Hin. }
  split; [apply Hnot; reflexivity|].
  split; [intros p; apply Hnot; exact I|].
  intros c. split; apply Hnot; exact I.
Qed.

(** C7, on the sample machine whose driver refuses to start. *)
Lemma C7_start_fails_witness :
  errors_of (snd (main (Sample.start_refused (Sample.healthy Sample.same_rule_twice))))
  = [SERVICE_NO_START]
  /\ results_of (snd (main (Sample.start_refused (Sample.healthy Sample.same_rule_twice))))
     = [].
Proof.
  destruct (C7_start_fails
              (Sample.start_refused (Sample.healthy Sample.same_rule_twice))
              "StartService failed")
    as (_ & He & Hr & _); try reflexivity.
  split; [exact He|exact Hr].
Defined.

(** C4 as stated fails twice over.  When [stop] raises, [delete] is not
    attempted; and when the scan step fails with an exception that is not a
    [DetectorError], [main] is left at once, with neither [stop] nor [delete]
    attempted. *)
Lemma C4_counterexample :
  let E1 := Sample.machine true false (Some "ControlService failed") None
              Sample.no_matches in
  let E2 := Sample.machine true false None (Some (ForeignError "AddrSpaceError"))
              Sample.no_matches in
  (service_started E1
   /\ service_calls_of (snd (main E1)) = [Create; Start; Stop])
  /\ (service_started E2
      /\ fst (scan_step E2) = Raise (ForeignError "AddrSpaceError")
      /\ fst (main E2) = Raise (ForeignError "AddrSpaceError")
      /\ service_calls_of (snd (main E2)) = [Create; Start]).
Proof.
  cbv zeta. split.
  - split; [repeat split|vm_compute; reflexivity].
  - split; [repeat split|]. repeat split; vm_compute; reflexivity.
Qed.

(** C4, amended.  In a run in which the service was started and the scan step
    returned or raised a [DetectorError], [main] returns normally, [stop] is
    attempted exactly once, and [delete] exactly once if [stop] returned and
    not at all if it raised.  A failure of [stop] or [delete] leaves one
    error-level log record and nothing else: the teardown puts nothing on
    either queue, so the messages of the run are those posted before it. *)
Theorem C4_teardown (E : collaborators) :
  service_started E ->
  (forall c, fst (scan_step E) <> Raise (ForeignError c)) ->
  fst (main E) = Ret tt
  /\ service_calls_of (snd (main E))
     = [Create; Start; Stop]
         ++ match service_stop E (the_service E) with
            | Some _ => []
            | None => [Delete]
            end
  /\ exists before,
       snd (main E)
       = before ++ snd (teardown E (the_service E))
           ++ [Log INFO "Analysis finished" []]
       /\ results_of (snd (teardown E (the_service E))) = []
       /\ errors_of (snd (teardown E (the_service E))) = []
       /\ results_of (snd (main E)) = results_of before
       /\ errors_of (snd (main E)) = errors_of before
       /\ (forall msg,
             service_stop E (the_service E) = Some msg
             \/ (service_stop E (the_service E) = None
                 /\ service_delete E (the_service E) = Some msg) ->
             Log ERROR "Unable to stop winpmem service: %s" [PStr msg]
               ∈ snd (teardown E (the_service E))).
Proof.
  intros Hst Hno.
  pose proof (main_started_calls E Hst) as Hcalls.
  pose proof (main_started E Hst) as Hmain.
  destruct (teardown_quiet E (the_service E)) as [Hqr Hqe].
  assert (Hlog : forall msg,
             service_stop E (the_service E) = Some msg
             \/ (service_stop E (the_service E) = None
                 /\ service_delete E (the_service E) = Some msg) ->
             Log ERROR "Unable to stop winpmem service: %s" [PStr msg]
               ∈ snd (teardown E (the_service E))).
  { intros msg H. rewrite teardown_eq. cbn [snd].
    destruct H as [-> | [-> ->]]; set_solver. }
  destruct (scan_step E) as [[b|[msg|c]] st] eqn:Hs; cbn [fst] in *.
  - rewrite Hmain in Hcalls. rewrite Hmain.
    split; [reflexivity|]. split; [exact Hcalls|].
    exists (startup_trace E ++ st ++ [Log INFO "Scanning finished" []]).
    cbn [snd]. rewrite <- !app_assoc.
    repeat split; try assumption.
    + rewrite !results_of_app, Hqr. cbn [results_of omap]. rewrite !app_nil_r. reflexivity.
    + rewrite !errors_of_app, Hqe. cbn [errors_of omap]. rewrite !app_nil_r. reflexivity.
  - rewrite Hmain in Hcalls. rewrite Hmain.
    split; [reflexivity|]. split; [exact Hcalls|].
    exists (startup_trace E ++ st
              ++ [Log CRITICAL "Yara scanning failed: %s" [PStr msg];
                  PutError SCAN_FAILED]).
    cbn [snd]. rewrite <- !app_assoc.
    repeat split; try assumption.
    + rewrite !results_of_app, Hqr. cbn [results_of omap]. rewrite !app_nil_r. reflexivity.
    + rewrite !errors_of_app, Hqe. cbn [errors_of omap]. rewrite !app_nil_r. reflexivity.
  - exfalso. apply (Hno c). reflexivity.
Qed.

(** C4 amended, on the sample machine whose [stop] raises after a scan that
    reported one rule. *)
Lemma C4_teardown_witness :
  fst (main (Sample.machine true false (Some "ControlService failed") None
               Sample.same_rule_twice)) = Ret tt
  /\ service_calls_of
       (snd (main (Sample.machine true false (Some "ControlService failed") None
                     Sample.same_rule_twice)))
     = [Create; Start; Stop].
Proof.
  destruct (C4_teardown (Sample.machine true false (Some "ControlService failed")
                           None Sample.same_rule_twice))
    as (H1 & H2 & _).
  - repeat split.
  - intros c. vm_compute. discriminate.
  - split; [exact H1|exact H2].
Defined.

(** C5 as stated fails: when loading the image raises an exception that is
    not a [DetectorError], the scan step fails, nothing is posted to the error
    queue and the exception leaves [main]. *)
Lemma C5_counterexample :
  let E := Sample.machine true false None (Some (ForeignError "AddrSpaceError"))
             Sample.no_matches in
  service_started E
  /\ fst (scan_step E) = Raise (ForeignError "AddrSpaceError")
  /\ fst (main E) = Raise (ForeignError "AddrSpaceError")
  /\ errors_of (snd (main E)) = [].
Proof.
  cbv zeta. split; [repeat split|]. repeat split; vm_compute; reflexivity.
Qed.

(** C5, amended.  [main] returns normally except in one case: the scan step
    was reached and raised an exception that is not a [DetectorError], which
    then leaves [main] with nothing posted.  Otherwise each failure posts its
    one message: a falsy profile [UNSUPPORTED_WINDOWS], a falsy driver path
    [NO_DRIVER], a [DetectorError] of [create] or [start] [SERVICE_NO_START],
    a [DetectorError] of the scan step [SCAN_FAILED]; a scan step that returns
    posts none. *)
Theorem C5_failures_caught (E : collaborators) :
  (fst (main E) = Ret tt
   <-> ~ (service_started E /\ exists c, fst (scan_step E) = Raise (ForeignError c)))
  /\ (forall c, service_started E -> fst (scan_step E) = Raise (ForeignError c) ->
        fst (main E) = Raise (ForeignError c) /\ errors_of (snd (main E)) = [])
  /\ (truthy (cfg_profile E) = false ->
      errors_of (snd (main E)) = [UNSUPPORTED_WINDOWS])
  /\ (truthy (cfg_profile E) = true -> cfg_get_driver_path E = false ->
      errors_of (snd (main E)) = [NO_DRIVER])
  /\ (truthy (cfg_profile E) = true -> cfg_get_driver_path E = true ->
      service_create E (the_service E) <> None
      \/ service_start E (the_service E) <> None ->
      errors_of (snd (main E)) = [SERVICE_NO_START])
  /\ (forall msg, service_started E ->
        fst (scan_step E) = Raise (DetectorError msg) ->
        errors_of (snd (main E)) = [SCAN_FAILED])
  /\ (forall b, service_started E -> fst (scan_step E) = Ret b ->
        errors_of (snd (main E)) = []).
Proof.
  assert (Hforeign : forall c, service_started E ->
             fst (scan_step E) = Raise (ForeignError c) ->
             fst (main E) = Raise (ForeignError c) /\ errors_of (snd (main E)) = []).
  { intros c Hst Hs. split.
    - rewrite (main_started E Hst).
      destruct (scan_step E) as [[b|[msg|c']] st]; cbn [fst] in *; congruence.
    - rewrite (main_started_errors E Hst), Hs. reflexivity. }
  split; [|split; [exact Hforeign|]].
  - split.
    + intros Hret (Hst & c & Hs). destruct (Hforeign c Hst Hs) as [H _]. congruence.
    + intros Hno.
      destruct (main_stages E)
        as [H|[[H1 H2]|[(H1 & H2 & m & H3)|[(H1 & H2 & H3 & m & H4)|H]]]].
      * rewrite (main_no_profile E H). reflexivity.
      * rewrite (main_no_driver E H1 H2). reflexivity.
      * rewrite (main_create_fails E m H1 H2 H3). reflexivity.
      * rewrite (main_start_fails E m H1 H2 H3 H4). reflexivity.
      * rewrite (main_started E H).
        destruct (scan_step E) as [[b|[msg|c]] st] eqn:Hs; [reflexivity..|].
        exfalso. apply Hno. split; [exact H|]. exists c. reflexivity.
  - split; [intros H; rewrite (main_no_profile E H); reflexivity|].
    split; [intros H1 H2; rewrite (main_no_driver E H1 H2); reflexivity|].
    split.
    + intros H1 H2 H3.
      destruct (service_create E (the_service E)) as [m|] eqn:Hc.
      * rewrite (main_create_fails E m H1 H2 Hc). reflexivity.
      * destruct (service_start E (the_service E)) as [m|] eqn:Hs.
        -- rewrite (main_start_fails E m H1 H2 Hc Hs). reflexivity.
        -- destruct H3 as [H3|H3]; contradiction.
    + split.
      * intros msg Hst Hs. rewrite (main_started_errors E Hst), Hs. reflexivity.
      * intros b Hst Hs. rewrite (main_started_errors E Hst), Hs. reflexivity.
Qed.

(** C5 amended, on the sample machine whose Yara generator raises a
    [DetectorError] after two reports. *)
Lemma C5_failures_caught_witness :
  fst (main (Sample.healthy (Sample.two_then_raise (DetectorError "engine stopped"))))
  = Ret tt
  /\ errors_of
       (snd (main (Sample.healthy
                     (Sample.two_then_raise (DetectorError "engine stopped")))))
     = [SCAN_FAILED].
Proof.
  destruct (C5_failures_caught
              (Sample.healthy (Sample.two_then_raise (DetectorError "engine stopped"))))
    as (H1 & _ & _ & _ & _ & H6 & _).
  split.
  - apply H1. intros (_ & c & Hc). vm_compute in Hc. discriminate Hc.
  - apply (H6 "engine stopped"); [repeat split|vm_compute; reflexivity].
Defined.

(** C6 as stated fails.  The loop of [scan] has no [raise] of its own: a
    failure in the middle of the iteration is an exception of the match
    generator.  When that exception is not a [DetectorError], as with
    Volatility's own, the two results stay on the result queue but no
    [SCAN_FAILED] is posted, neither [stop] nor [delete] is attempted, and the
    exception leaves [main]. *)
Lemma C6_counterexample :
  let E := Sample.healthy (Sample.two_then_raise (ForeignError "KeyError")) in
  service_started E
  /\ fst (scan_step E) = Raise (ForeignError "KeyError")
  /\ results_of (snd (scan_step E))
     = [result_dict Sample.finspy 4 0; result_dict Sample.blackshades 8 4]
  /\ results_of (snd (main E))
     = [result_dict Sample.finspy 4 0; result_dict Sample.blackshades 8 4]
  /\ fst (main E) = Raise (ForeignError "KeyError")
  /\ errors_of (snd (main E)) = []
  /\ service_calls_of (snd (main E)) = [Create; Start].
Proof.
  cbv zeta. split; [repeat split|]. repeat split; vm_compute; reflexivity.
Qed.

(** C6, amended.  When the scan step fails after having put two messages on
    the result queue, the exception is the one the match generator raised, and
    the two messages are the result messages of the run.  What else happens
    depends on the class of that exception alone.  If it is not a
    [DetectorError], it is not caught: [main] is left with it right after the
    scan, no error message is posted, and neither [stop] nor [delete] is
    attempted.  If it is a [DetectorError], [main] returns normally, exactly
    one error message, [SCAN_FAILED], is posted after the two results, [stop]
    is attempted, and [delete] is attempted if [stop] returned. *)
Theorem C6_scan_fails_midway (E : collaborators) (e : exn) (m1 m2 : message) :
  service_started E ->
  fst (scan_step E) = Raise e ->
  results_of (snd (scan_step E)) = [m1; m2] ->
  (exists yp,
     signature_path E = Some yp
     /\ load_as E (mkConf (default "" (cfg_profile E)) (cfg_service_path E) yp) = None
     /\ ending (yara_calculate E
                  (mkConf (default "" (cfg_profile E)) (cfg_service_path E) yp))
        = Some e)
  /\ results_of (snd (main E)) = [m1; m2]
  /\ (forall c, e = ForeignError c ->
        main E = (Raise (ForeignError c), startup_trace E ++ snd (scan_step E))
        /\ errors_of (snd (main E)) = []
        /\ service_calls_of (snd (main E)) = [Create; Start])
  /\ (forall msg, e = DetectorError msg ->
        main E
        = (Ret tt,
           startup_trace E ++ snd (scan_step E)
             ++ [Log CRITICAL "Yara scanning failed: %s" [PStr msg];
                 PutError SCAN_FAILED]
             ++ snd (teardown E (the_service E))
             ++ [Log INFO "Analysis finished" []])
        /\ errors_of (snd (main E)) = [SCAN_FAILED]
        /\ service_calls_of (snd (main E))
           = [Create; Start; Stop]
               ++ match service_stop E (the_service E) with
                  | Some _ => []
                  | None => [Delete]
                  end).
Proof.
  intros Hst Hs Hres. split; [|split; [|split]].
  - unfold scan_step in Hs, Hres. rewrite scan_eq in Hs, Hres.
    destruct (signature_path E) as [yp|];
      [|cbn [snd] in Hres; unfold probe_trace in Hres;
        destruct (path_exists E (cwd_signatures E)); discriminate Hres].
    exists yp. split; [reflexivity|]. cbv zeta in Hs, Hres.
    set (c := mkConf (default "" (cfg_profile E)) (cfg_service_path E) yp) in *.
    destruct (load_as E c) as [e'|].
    + cbn [snd] in Hres. destruct (load_trace_quiet E c) as (Hq & _).
      rewrite Hq in Hres. discriminate Hres.
    + split; [reflexivity|]. cbn [fst] in Hs.
      destruct (scan_loop_spec E (items (yara_calculate E c))
                  (ending (yara_calculate E c)) [] (NoDup_nil_2))
        as (rs & _ & _ & _ & _ & Ho).
      rewrite Ho in Hs. destruct (ending (yara_calculate E c)); congruence.
  - destruct (main_results E) as [H | [_ H]]; [|rewrite H; exact Hres].
    exfalso. rewrite (main_started E Hst) in H.
    destruct (scan_step E) as [[b|[msg'|c]] st]; cbn [fst snd] in *; try discriminate.
    + rewrite !results_of_app, Hres in H.
      apply (f_equal (@List.length message)) in H.
      rewrite !length_app in H. cbn in H. lia.
    + rewrite !results_of_app, Hres in H.
      apply (f_equal (@List.length message)) in H.
      rewrite !length_app in H. cbn in H. lia.
  - intros c ->. split; [|split].
    + rewrite (main_started E Hst).
      destruct (scan_step E) as [[b|[msg'|c']] st]; cbn [fst snd] in *; congruence.
    + rewrite (main_started_errors E Hst), Hs. reflexivity.
    + rewrite (main_started_calls E Hst), Hs. reflexivity.
  - intros msg ->. split; [|split].
    + rewrite (main_started E Hst).
      destruct (scan_step E) as [[b|[msg'|c]] st]; cbn [fst snd] in *; congruence.
    + rewrite (main_started_errors E Hst), Hs. reflexivity.
    + rewrite (main_started_calls E Hst), Hs. reflexivity.
Qed.

(** C6 amended, on the sample machine whose generator raises a [KeyError]
    after two reports. *)
Lemma C6_scan_fails_midway_witness :
  results_of
    (snd (main (Sample.healthy (Sample.two_then_raise (ForeignError "KeyError")))))
  = [result_dict Sample.finspy 4 0; result_dict Sample.blackshades 8 4]
  /\ fst (main (Sample.healthy (Sample.two_then_raise (ForeignError "KeyError"))))
     = Raise (ForeignError "KeyError")
  /\ errors_of
       (snd (main (Sample.healthy (Sample.two_then_raise (ForeignError "KeyError")))))
     = []
  /\ service_calls_of
       (snd (main (Sample.healthy (Sample.two_then_raise (ForeignError "KeyError")))))
     = [Create; Start].
Proof.
  destruct (C6_scan_fails_midway
              (Sample.healthy (Sample.two_then_raise (ForeignError "KeyError")))
              (ForeignError "KeyError")
              (result_dict Sample.finspy 4 0) (result_dict Sample.blackshades 8 4))
    as (_ & Hr & Hf & _).
  - repeat split.
  - vm_compute. reflexivity.
  - vm_compute. reflexivity.
  - destruct (Hf "KeyError" eq_refl) as (Hm & He & Hc).
    split; [exact Hr|]. split; [rewrite Hm; reflexivity|].
    split; [exact He|exact Hc].
Defined.

(** C10.  No run of [main] posts more than one error message.  A message
    other than [SCAN_FAILED] is the last thing the run does: [main] returns
    right after posting it.  After [SCAN_FAILED] only the teardown and the
    closing log line follow, and the teardown posts nothing. *)
Theorem C10_at_most_one_error (E : collaborators) :
  (List.length (errors_of (snd (main E))) <= 1)%nat
  /\ (forall e, e ∈ errors_of (snd (main E)) -> e <> SCAN_FAILED ->
        exists pre,
          main E = (Ret tt, pre ++ [PutError e])
          /\ errors_of pre = [] /\ results_of pre = []
          /\ (Stop ∉ service_calls_of pre) /\ (Delete ∉ service_calls_of pre))
  /\ (SCAN_FAILED ∈ errors_of (snd (main E)) ->
        exists pre,
          main E
          = (Ret tt,
             pre ++ [PutError SCAN_FAILED]
               ++ snd (teardown E (the_service E))
               ++ [Log INFO "Analysis finished" []])
          /\ errors_of pre = []
          /\ errors_of (snd (teardown E (the_service E))) = []
          /\ results_of (snd (teardown E (the_service E))) = []).
Proof.
  assert (Hone : forall (x e : error_message), e ∈ [x] -> e = x)
    by (intros x e H; apply list_elem_of_singleton in H; exact H).
  assert (Hearly : forall pre x,
             main E = (Ret tt, pre ++ [PutError x]) ->
             errors_of pre = [] -> results_of pre = [] ->
             Stop ∉ service_calls_of pre -> Delete ∉ service_calls_of pre ->
             x <> SCAN_FAILED ->
             (List.length (errors_of (snd (main E))) <= 1)%nat
             /\ (forall e, e ∈ errors_of (snd (main E)) -> e <> SCAN_FAILED ->
                   exists pre,
                     main E = (Ret tt, pre ++ [PutError e])
                     /\ errors_of pre = [] /\ results_of pre = []
                     /\ (Stop ∉ service_calls_of pre) /\ (Delete ∉ service_calls_of pre))
             /\ (SCAN_FAILED ∈ errors_of (snd (main E)) ->
                   exists pre,
                     main E
                     = (Ret tt,
                        pre ++ [PutError SCAN_FAILED]
                          ++ snd (teardown E (the_service E))
                          ++ [Log INFO "Analysis finished" []])
                     /\ errors_of pre = []
                     /\ errors_of (snd (teardown E (the_service E))) = []
                     /\ results_of (snd (teardown E (the_service E))) = [])).
  { intros pre x Hm He Hr Hs Hd Hx.
    assert (Herr : errors_of (snd (main E)) = [x])
      by (rewrite Hm; cbn [snd]; rewrite errors_of_app, He; reflexivity).
    rewrite Herr. split; [cbn; lia|]. split.
    - intros e Hin _. apply Hone in Hin. subst e. exists pre. auto.
    - intros Hin. apply Hone in Hin. congruence. }
  destruct (main_stages E)
    as [H|[[H1 H2]|[(H1 & H2 & m & H3)|[(H1 & H2 & H3 & m & H4)|H]]]].
  - eapply (Hearly [_]); [apply (main_no_profile E H)|try reflexivity..|discriminate];
      cbn; not_in_list.
  - eapply (Hearly [_; _]); [apply (main_no_driver E H1 H2)|try reflexivity..|discriminate];
      cbn; not_in_list.
  - eapply (Hearly [_; _; _; _]);
      [apply (main_create_fails E m H1 H2 H3)|try reflexivity..|discriminate];
      cbn; not_in_list.
  - eapply (Hearly [_; _; _; _; _]);
      [apply (main_start_fails E m H1 H2 H3 H4)|try reflexivity..|discriminate];
      cbn; not_in_list.
  - rewrite (main_started_errors E H).
    pose proof (main_started E H) as Hm.
    destruct (scan_quiet E (cfg_service_path E) (default "" (cfg_profile E)))
      as [Hq _]. fold (scan_step E) in Hq.
    destruct (teardown_quiet E (the_service E)) as [Htr Hte].
    destruct (scan_step E) as [[b|[msg|c]] st]; cbn [fst snd] in *.
    + split; [cbn; lia|].
      split; intros; exfalso; eapply elem_of_nil; eassumption.
    + split; [cbn; lia|]. split.
      * intros e Hin Hne. apply Hone in Hin. contradiction.
      * intros _.
        exists (startup_trace E ++ st
                  ++ [Log CRITICAL "Yara scanning failed: %s" [PStr msg]]).
        rewrite Hm, <- !app_assoc. split; [reflexivity|].
        rewrite !errors_of_app, Hq. repeat split; assumption.
    + split; [cbn; lia|].
      split; intros; exfalso; eapply elem_of_nil; eassumption.
Qed.

(** C10, on the sample machine whose driver refuses to start, and on the one
    whose scan step fails. *)
Lemma C10_at_most_one_error_witness :
  (exists pre,
     main (Sample.start_refused (Sample.healthy Sample.no_matches))
     = (Ret tt, pre ++ [PutError SERVICE_NO_START])
     /\ errors_of pre = [])
  /\ (exists pre,
        main (Sample.machine false false None None Sample.no_matches)
        = (Ret tt,
           pre ++ [PutError SCAN_FAILED]
             ++ snd (teardown (Sample.machine false false None None Sample.no_matches)
                       (the_service
                          (Sample.machine false false None None Sample.no_matches)))
             ++ [Log INFO "Analysis finished" []])
        /\ errors_of pre = []).
Proof.
  split.
  - destruct (C10_at_most_one_error
                (Sample.start_refused (Sample.healthy Sample.no_matches)))
      as (_ & H & _).
    destruct (H SERVICE_NO_START) as (pre & Hm & He & _).
    + vm_compute. apply list_elem_of_singleton. reflexivity.
    + discriminate.
    + exists pre. split; [exact Hm|exact He].
  - destruct (C10_at_most_one_error
                (Sample.machine false false None None Sample.no_matches))
      as (_ & _ & H).
    destruct H as (pre & Hm & He & _).
    + vm_compute. apply list_elem_of_singleton. reflexivity.
    + exists pre. split; [exact Hm|exact He].
Defined.

(** * Further properties of the loop of [scan] *)

Section StreamFacts.

Variable E : collaborators.

Lemma eligible_foreign r : eligible E r = true <-> foreign_process E r.
Proof.
  unfold eligible, foreign_process, py_int. split.
  - destruct (o r) as [ob|]; [|discriminate]. intros H.
    apply andb_true_iff in H as [Hn Hp]. exists ob.
    split; [reflexivity|]. split; [apply String.eqb_eq, Hn|].
    apply negb_true_iff, Z.eqb_neq in Hp. exact Hp.
  - intros (ob & -> & Hn & Hp). apply andb_true_iff. split.
    + apply String.eqb_eq, Hn.
    + apply negb_true_iff, Z.eqb_neq, Hp.
Qed.

Lemma scan_record_ineligible r matched :
  eligible E r = false -> scan_record E r matched = (Ret matched, []).
Proof.
  unfold eligible, scan_record. destruct (o r) as [ob|]; [|reflexivity].
  destruct (String.eqb (obj_name ob) "_EPROCESS"); [|reflexivity].
  cbn [andb]. intros H. apply negb_false_iff in H. rewrite H. reflexivity.
Qed.

Lemma scan_record_eligible r matched :
  eligible E r = true -> rule (hit r) ∉ matched ->
  scan_record E r matched = (Ret (matched ++ [rule (hit r)]), report_events E r).
Proof.
  intros He Hm. apply eligible_foreign in He as (ob & Ho & Hn & Hp).
  apply (scan_record_report E r ob matched Ho Hn Hp Hm).
Qed.

(** The loop over a stream in two pieces: the second piece starts from the
    list of matched rules the first piece ends with. *)
Lemma scan_loop_app its1 its2 stop matched :
  scan_loop E (its1 ++ its2) stop matched
  = (let* matched' := scan_loop E its1 None matched in
     scan_loop E its2 stop matched').
Proof.
  revert matched. induction its1 as [|r its1 IH]; intros matched.
  - cbn. destruct (scan_loop E its2 stop matched). reflexivity.
  - cbn [app scan_loop].
    destruct (scan_record_cases E r matched) as [-> | (_ & _ & ->)].
    + rewrite !bind_ret_l. apply IH.
    + cbn [bind]. rewrite IH. unfold bind.
      destruct (scan_loop E its1 None (matched ++ [rule (hit r)])) as [[m'|e] t1];
        [|reflexivity].
      destruct (scan_loop E its2 stop m') as [o2 t2].
      rewrite app_assoc. reflexivity.
Qed.

(** Without an exception at the end the loop always returns. *)
Lemma scan_loop_returns its matched :
  exists matched', fst (scan_loop E its None matched) = Ret matched'.
Proof.
  destruct (NoDup_dec matched) as [Hnd|Hd].
  - destruct (scan_loop_spec E its None matched Hnd) as (rs & _ & _ & _ & _ & Ho).
    eauto.
  - revert matched Hd. induction its as [|r its IH]; intros matched Hd.
    + eexists. reflexivity.
    + cbn [scan_loop].
      destruct (scan_record_cases E r matched) as [-> | (_ & _ & ->)].
      * rewrite bind_ret_l. apply IH, Hd.
      * rewrite bind_fst_snd. cbn [fst].
        destruct (NoDup_dec (matched ++ [rule (hit r)])) as [Hnd|Hd'].
        -- destruct (scan_loop_spec E its None _ Hnd) as (rs & _ & _ & _ & _ & Ho).
           rewrite Ho. eauto.
        -- destruct (IH _ Hd') as (m' & Hm'). rewrite Hm'. eauto.
Qed.

(** No eligible tuple goes unreported: its rule is already matched, or a
    message with its rule is put. *)
Lemma scan_loop_complete its stop matched r :
  r ∈ its -> eligible E r = true ->
  rule (hit r) ∈ matched
  \/ exists m, m ∈ results_of (snd (scan_loop E its stop matched))
               /\ rule_of m = Some (PStr (rule (hit r))).
Proof.
  revert matched. induction its as [|r0 its IH]; intros matched Hin He.
  - apply elem_of_nil in Hin. contradiction.
  - destruct (decide (rule (hit r) ∈ matched)) as [Hm|Hm]; [left; exact Hm|right].
    cbn [scan_loop].
    destruct (scan_record_cases E r0 matched) as [Hskip | (Hfp & Hnew & Hrep)].
    + rewrite Hskip, bind_ret_l.
      apply elem_of_cons in Hin as [-> | Hin].
      * rewrite (scan_record_eligible r0 matched He Hm) in Hskip.
        apply eligible_foreign in He as (ob & Ho & _).
        unfold report_events in Hskip. rewrite Ho in Hskip. discriminate Hskip.
      * destruct (IH matched Hin He) as [H|H]; [contradiction|exact H].
    + rewrite Hrep, bind_fst_snd. cbn [fst snd]. rewrite results_of_app.
      destruct (results_of_report E r0 Hfp) as (ob & _ & Hres). rewrite Hres.
      assert (Hhead : rule (hit r) = rule (hit r0) ->
                exists m,
                  m ∈ [result_dict (hit r0) (UniqueProcessId ob)
                         (InheritedFromUniqueProcessId ob)]
                        ++ results_of
                             (snd (scan_loop E its stop (matched ++ [rule (hit r0)])))
                  /\ rule_of m = Some (PStr (rule (hit r)))).
      { intros ->. eexists. split; [apply elem_of_app; left; left|reflexivity]. }
      apply elem_of_cons in Hin as [-> | Hin]; [apply Hhead; reflexivity|].
      destruct (IH (matched ++ [rule (hit r0)]) Hin He) as [H|(m & Hm' & Hr)].
      * apply elem_of_app in H as [H|H]; [contradiction|].
        apply list_elem_of_singleton in H. apply Hhead, H.
      * exists m. split; [apply elem_of_app; right; exact Hm'|exact Hr].
Qed.

(** The trace of the loop does not depend on how the generator ends. *)
Lemma scan_loop_trace its stop matched :
  snd (scan_loop E its stop matched) = snd (scan_loop E its None matched).
Proof.
  rewrite <- (app_nil_r its) at 1. rewrite scan_loop_app, bind_fst_snd.
  destruct (scan_loop_returns its matched) as (m' & ->).
  cbn [scan_loop]. destruct stop; cbn [snd]; apply app_nil_r.
Qed.

(** Messages of one run with the same rule are the same message. *)
Lemma scan_results_by_rule sp pn m1 m2 :
  m1 ∈ results_of (snd (scan E sp pn)) ->
  m2 ∈ results_of (snd (scan E sp pn)) ->
  rule_of m1 = rule_of m2 -> m1 = m2.
Proof.
  destruct (scan_spec E sp pn) as (pre & rs & -> & Hpre & _ & _ & Hall & Hnd & _).
  rewrite results_of_app, Hpre. cbn [app].
  destruct (results_of_reports E rs Hall) as (_ & Hrules & _).
  assert (Hnd' : NoDup (rule_of <$> results_of (rs ≫= report_events E))).
  { rewrite Hrules.
    change ((fun r => Some (PStr (rule (hit r)))) <$> rs)
      with ((fun x => Some (PStr x)) ∘ (fun r => rule (hit r)) <$> rs).
    rewrite list_fmap_compose. apply NoDup_fmap_2; [|exact Hnd].
    intros x y Hxy. congruence. }
  revert Hnd'. generalize (results_of (rs ≫= report_events E)). clear.
  intros l. induction l as [|m l IH]; intros Hnd H1 H2 Heq.
  - apply elem_of_nil in H1. contradiction.
  - cbn [fmap list_fmap] in Hnd. apply NoDup_cons in Hnd as [Hm Hnd].
    apply elem_of_cons in H1 as [-> | H1]; apply elem_of_cons in H2 as [-> | H2].
    + reflexivity.
    + exfalso. apply Hm. rewrite Heq. apply list_elem_of_fmap. eauto.
    + exfalso. apply Hm. rewrite <- Heq. apply list_elem_of_fmap. eauto.
    + apply IH; assumption.
Qed.

(** Once the image is loaded, the result messages of [scan] are those of its
    loop. *)
Lemma scan_results_loop sp pn yp :
  signature_path E = Some yp ->
  load_as E (mkConf pn sp yp) = None ->
  results_of (snd (scan E sp pn))
  = results_of (snd (scan_loop E (items (yara_calculate E (mkConf pn sp yp)))
                       (ending (yara_calculate E (mkConf pn sp yp))) [])).
Proof.
  intros Hsig Hload. rewrite scan_eq, Hsig. cbv zeta. rewrite Hload. cbn [snd].
  rewrite !results_of_app.
  destruct (load_trace_quiet E (mkConf pn sp yp)) as (-> & _). reflexivity.
Qed.

End StreamFacts.

(** X1.  The signature file of the working directory takes precedence: when
    it exists the packaged file is not looked up, and Volatility is configured
    with the working-directory path, whether or not a packaged file exists
    too.  The packaged file is looked up, and used, only when the first is
    absent. *)
Theorem X1_signature_resolution (E : collaborators) (sp pn : string) :
  (path_exists E (cwd_signatures E) = true ->
   exists rest,
     snd (scan E sp pn)
     = [ PathExists (cwd_signatures E);
         Log INFO "Selected Yara signature file at %s" [PStr (cwd_signatures E)];
         Log INFO "Obtaining address space and generating config for volatility" [];
         LoadAs (mkConf pn sp (cwd_signatures E)) ] ++ rest)
  /\ (path_exists E (cwd_signatures E) = false ->
      path_exists E (packaged_signatures E) = true ->
      exists rest,
        snd (scan E sp pn)
        = [ PathExists (cwd_signatures E);
            PathExists (packaged_signatures E);
            Log INFO "Selected Yara signature file at %s"
              [PStr (packaged_signatures E)];
            Log INFO "Obtaining address space and generating config for volatility" [];
            LoadAs (mkConf pn sp (packaged_signatures E)) ] ++ rest).
Proof.
  split.
  - intros H1. rewrite scan_eq. unfold signature_path, load_trace, probe_trace.
    rewrite H1. cbv zeta.
    destruct (load_as E _); cbn [snd YARA_FILE app]; eexists; reflexivity.
  - intros H1 H2. rewrite scan_eq. unfold signature_path, load_trace, probe_trace.
    rewrite H1, H2. cbv zeta.
    destruct (load_as E _); cbn [snd YARA_FILE app]; eexists; reflexivity.
Qed.

(** X1, on the sample machine that has both files, and on the one that has
    only the packaged file. *)
Lemma X1_signature_resolution_witness :
  (exists rest,
     snd (scan (Sample.machine true true None None Sample.no_matches) "//./pmem" "Win7SP1x64")
     = [ PathExists "C:/detekt/signatures.yar";
         Log INFO "Selected Yara signature file at %s" [PStr "C:/detekt/signatures.yar"];
         Log INFO "Obtaining address space and generating config for volatility" [];
         LoadAs (mkConf "Win7SP1x64" "//./pmem" "C:/detekt/signatures.yar") ] ++ rest)
  /\ (exists rest,
        snd (scan (Sample.machine false true None None Sample.no_matches)
               "//./pmem" "Win7SP1x64")
        = [ PathExists "C:/detekt/signatures.yar";
            PathExists "C:/pkg/rules/signatures.yar";
            Log INFO "Selected Yara signature file at %s"
              [PStr "C:/pkg/rules/signatures.yar"];
            Log INFO "Obtaining address space and generating config for volatility" [];
            LoadAs (mkConf "Win7SP1x64" "//./pmem" "C:/pkg/rules/signatures.yar") ]
            ++ rest).
Proof.
  split.
  - apply (X1_signature_resolution
             (Sample.machine true true None None Sample.no_matches)
             "//./pmem" "Win7SP1x64").
    reflexivity.
  - apply (X1_signature_resolution
             (Sample.machine false true None None Sample.no_matches)
             "//./pmem" "Win7SP1x64"); reflexivity.
Defined.

(** X2.  How [scan] ends, in terms of what it is given.  Without a signature
    file it raises its own [DetectorError]; an exception of the image loader
    or of the match generator leaves [scan] unchanged; otherwise [scan]
    returns, and returns [True] exactly when the stream holds at least one
    tuple of a process other than the scanner. *)
Theorem X2_scan_outcome (E : collaborators) (sp pn : string) :
  fst (scan E sp pn)
  = match signature_path E with
    | None => Raise (DetectorError "Unable to find a valid Yara signatures file!")
    | Some yp =>
        match load_as E (mkConf pn sp yp) with
        | Some e => Raise e
        | None =>
            match ending (yara_calculate E (mkConf pn sp yp)) with
            | Some e => Raise e
            | None =>
                Ret (existsb (eligible E) (items (yara_calculate E (mkConf pn sp yp))))
            end
        end
    end.
Proof.
  rewrite scan_eq. destruct (signature_path E) as [yp|]; [|reflexivity].
  cbv zeta. set (c := mkConf pn sp yp).
  destruct (load_as E c) as [e|]; [reflexivity|]. cbn [fst].
  destruct (scan_loop_spec E (items (yara_calculate E c))
              (ending (yara_calculate E c)) [] (NoDup_nil_2))
    as (rs & Ht & Hsub & Hall & _ & Ho).
  rewrite Ho. destruct (ending (yara_calculate E c)) as [e|] eqn:Hend; [reflexivity|].
  cbn [app]. f_equal.
  destruct (existsb (eligible E) (items (yara_calculate E c))) eqn:Hex.
  - apply existsb_exists in Hex as (r & Hin & He).
    apply list_elem_of_In in Hin.
    destruct (scan_loop_complete E _ None [] r Hin He) as [H|(m & Hm & _)].
    + apply elem_of_nil in H. contradiction.
    + rewrite Ht in Hm. destruct rs as [|r' rs']; [|reflexivity].
      apply elem_of_nil in Hm. contradiction.
  - destruct rs as [|r' rs']; [reflexivity|]. exfalso.
    assert (Hr' : existsb (eligible E) (items (yara_calculate E c)) = true).
    { apply existsb_exists. exists r'. split.
      - apply list_elem_of_In. eapply elem_of_sublist; [left|exact Hsub].
      - apply eligible_foreign. apply Forall_cons in Hall as [H _]. exact H. }
    congruence.
Qed.

(** X4.  No detection is lost: once the image is loaded, every tuple of the
    stream that refers to a process other than the scanner has its rule
    reported by some message of the run, also when the generator raises at
    the end. *)
Theorem X4_every_hit_reported (E : collaborators) (sp pn yp : string)
    (r : match_record) :
  signature_path E = Some yp ->
  load_as E (mkConf pn sp yp) = None ->
  r ∈ items (yara_calculate E (mkConf pn sp yp)) ->
  eligible E r = true ->
  exists m, m ∈ results_of (snd (scan E sp pn))
            /\ m !! "rule" = Some (PStr (rule (hit r))).
Proof.
  intros Hsig Hload Hin He. rewrite (scan_results_loop E sp pn yp Hsig Hload).
  destruct (scan_loop_complete E _ (ending (yara_calculate E (mkConf pn sp yp)))
              [] r Hin He) as [H|H].
  - apply elem_of_nil in H. contradiction.
  - exact H.
Qed.

(** X4, on the sample machine with the mixed stream: the BlackShades hit in
    process 8 is reported. *)
Lemma X4_every_hit_reported_witness :
  exists m,
    m ∈ results_of (snd (scan (Sample.healthy Sample.mixed) "//./pmem" "Win7SP1x64"))
    /\ m !! "rule" = Some (PStr "BlackShades").
Proof.
  apply (X4_every_hit_reported (Sample.healthy Sample.mixed)
           "//./pmem" "Win7SP1x64" "C:/detekt/signatures.yar"
           (mkMatch (Some (Sample.process 8 4)) 8192 Sample.blackshades "PE"));
    try reflexivity.
  vm_compute. do 4 right. left.
Defined.

(** X5.  The first hit wins.  Once the image is loaded, if a tuple refers to
    a process other than the scanner and no earlier such tuple of the stream
    has its rule, then the message of that rule is the one built from this
    tuple, with its pid and ppid, and no other message of the run carries the
    rule. *)
Theorem X5_first_hit_wins (E : collaborators) (sp pn yp : string)
    (pre post : list match_record) (r : match_record) (ob : vobject) :
  signature_path E = Some yp ->
  load_as E (mkConf pn sp yp) = None ->
  items (yara_calculate E (mkConf pn sp yp)) = pre ++ r :: post ->
  o r = Some ob ->
  eligible E r = true ->
  (forall r', r' ∈ pre -> eligible E r' = true -> rule (hit r') <> rule (hit r)) ->
  result_dict (hit r) (UniqueProcessId ob) (InheritedFromUniqueProcessId ob)
    ∈ results_of (snd (scan E sp pn))
  /\ (forall m, m ∈ results_of (snd (scan E sp pn)) ->
        m !! "rule" = Some (PStr (rule (hit r))) ->
        m = result_dict (hit r) (UniqueProcessId ob)
              (InheritedFromUniqueProcessId ob)).
Proof.
  intros Hsig Hload Hitems Ho He Hfirst.
  assert (Hin : result_dict (hit r) (UniqueProcessId ob)
                  (InheritedFromUniqueProcessId ob)
                ∈ results_of (snd (scan E sp pn))).
  { rewrite (scan_results_loop E sp pn yp Hsig Hload), Hitems.
    rewrite scan_loop_app, bind_fst_snd.
    destruct (scan_loop_spec E pre None [] (NoDup_nil_2))
      as (rs & _ & Hsub & Hall & _ & Hret).
    rewrite Hret. cbn [app snd scan_loop].
    assert (Hnew : rule (hit r) ∉ map (fun r0 => rule (hit r0)) rs).
    { intros Hr. apply list_elem_of_In, in_map_iff in Hr as (r' & Hrule & Hr').
      apply list_elem_of_In in Hr'.
      apply (Hfirst r'); [eapply elem_of_sublist; eassumption| |exact Hrule].
      apply eligible_foreign. rewrite Forall_forall in Hall. apply Hall, Hr'. }
    rewrite (scan_record_eligible E r _ He Hnew), bind_fst_snd. cbn [fst snd].
    rewrite !results_of_app. apply elem_of_app. right. apply elem_of_app. left.
    unfold report_events. rewrite Ho. left. }
  split; [exact Hin|].
  intros m Hm Hrule. apply (scan_results_by_rule E sp pn m _ Hm Hin).
  unfold rule_of. rewrite Hrule. reflexivity.
Qed.

(** X5, on the sample machine with the mixed stream: FinSpy is reported for
    process 4, the first process hit, although a kernel-space hit of the rule
    comes before and a hit in process 12 after. *)
Lemma X5_first_hit_wins_witness :
  result_dict Sample.finspy 4 0
    ∈ results_of (snd (scan (Sample.healthy Sample.mixed) "//./pmem" "Win7SP1x64"))
  /\ (forall m,
        m ∈ results_of (snd (scan (Sample.healthy Sample.mixed) "//./pmem" "Win7SP1x64")) ->
        m !! "rule" = Some (PStr "FinSpy") ->
        m = result_dict Sample.finspy 4 0).
Proof.
  apply (X5_first_hit_wins (Sample.healthy Sample.mixed)
           "//./pmem" "Win7SP1x64" "C:/detekt/signatures.yar"
           [mkMatch (Some (mkObject "_KTHREAD" 4 0)) 1024 Sample.finspy "KT"]
           [mkMatch None 2048 Sample.blackshades "??";
            mkMatch (Some (Sample.process 1000 4)) 4096 Sample.blackshades "MZ";
            mkMatch (Some (Sample.process 8 4)) 8192 Sample.blackshades "PE";
            mkMatch (Some (Sample.process 12 4)) 8192 Sample.finspy "PE"]
           (mkMatch (Some (Sample.process 4 0)) 4096 Sample.finspy "MZ")
           (Sample.process 4 0)); try reflexivity.
  intros r' Hr' He. apply list_elem_of_singleton in Hr'. subst r'.
  vm_compute in He. discriminate He.
Defined.

(** X6.  Tuples without an object, tuples of another structure than
    [_EPROCESS] and tuples of the scanner's own process are invisible: the
    loop behaves on a stream exactly as on the stream without them, in what
    it returns, in what it puts and logs, and in the rules it counts as
    matched. *)
Theorem X6_ineligible_ignored (E : collaborators) (its : list match_record)
    (stop : option exn) (matched : list string) :
  scan_loop E its stop matched
  = scan_loop E (List.filter (eligible E) its) stop matched.
Proof.
  revert matched. induction its as [|r its IH]; intros matched; [reflexivity|].
  cbn [List.filter scan_loop]. destruct (eligible E r) eqn:He.
  - cbn [scan_loop].
    destruct (scan_record E r matched) as [[m'|e] t]; cbn [bind];
      [rewrite IH|]; reflexivity.
  - rewrite (scan_record_ineligible E r matched He), bind_ret_l. apply IH.
Qed.

(** X7.  The evidence text written to the log is one line per row of the
    hexdump, in order: the row's hex bytes, a blank, the row's printable
    characters joined, a line feed.  The offsets of the rows are not part of
    it, and a hexdump without rows gives the empty text. *)
Theorem X7_evidence_lines (E : collaborators) (v : string) :
  render_rule_data E v
  = String.concat ""
      (map (fun row : Z * string * list string =>
              let '(_, hexdata, translated_data) := row in
              hexdata +:+ " " +:+ String.concat "" translated_data +:+ newline)
         (Hexdump E v))
  /\ (Hexdump E v = [] -> render_rule_data E v = "").
Proof.
  split; [apply render_rule_data_lines|].
  intros H. unfold render_rule_data. rewrite H. reflexivity.
Qed.

(** X7, on the sixteen-byte hexdump: two lines for nineteen bytes, no text
    for an empty value. *)
Lemma X7_evidence_lines_witness :
  render_rule_data (Sample.with_rows Sample.no_matches) "This program cannot"
  = "54 68 69 73 20 70 72 6f 67 72 61 6d 20 63 61 6e This.program.can" +:+ newline
    +:+ "6e 6f 74 not" +:+ newline
  /\ render_rule_data (Sample.with_rows Sample.no_matches) "" = "".
Proof.
  split.
  - destruct (X7_evidence_lines (Sample.with_rows Sample.no_matches)
                "This program cannot") as [H _].
    rewrite H. reflexivity.
  - apply (X7_evidence_lines (Sample.with_rows Sample.no_matches) ""). reflexivity.
Defined.

(** * Further properties of [main] *)

Section ProtocolFacts.

Variable E : collaborators.

Lemma protocol_app svc p t1 t2 :
  protocol svc p (t1 ++ t2)
  = match protocol svc p t1 with
    | Some p' => protocol svc p' t2
    | None => None
    end.
Proof.
  revert p. induction t1 as [|ev t1 IH]; intros p; [reflexivity|].
  cbn [app protocol]. destruct (protocol_step svc p ev); [apply IH|reflexivity].
Qed.

(** While the service is up, anything but a service call keeps it up. *)
Lemma protocol_started svc t :
  service_calls_of t = [] -> protocol svc Started t = Some Started.
Proof.
  induction t as [|ev t IH]; [reflexivity|].
  destruct ev; cbn; try exact IH. discriminate.
Qed.

Lemma protocol_teardown :
  exists p, protocol (the_service E) Started (snd (teardown E (the_service E))) = Some p
            /\ (p = Stopped \/ p = Deleted).
Proof.
  rewrite teardown_eq. cbn [snd].
  destruct (service_stop E (the_service E)); [|destruct (service_delete E (the_service E))];
    run_protocol; eauto.
Qed.

Lemma scan_ret_results sp pn b :
  fst (scan E sp pn) = Ret b ->
  (b = false <-> results_of (snd (scan E sp pn)) = []).
Proof.
  intros Hb.
  destruct (scan_spec E sp pn) as (pre & rs & Ht & Hpre & _ & _ & Hall & _ & _ & Hret).
  destruct (Hret b Hb) as (_ & _ & _ & ->).
  rewrite Ht, results_of_app, Hpre. cbn [app].
  destruct (results_of_reports E rs Hall) as (Hlen & _ & _).
  destruct rs as [|r rs']; cbn [map List.length Nat.ltb Nat.leb].
  - split; reflexivity.
  - destruct (results_of ((r :: rs') ≫= report_events E)); [discriminate Hlen|].
    split; discriminate.
Qed.

(** The one configuration [scan] can hand to the image loader. *)
Lemma scan_load_config sp pn c :
  LoadAs c ∈ snd (scan E sp pn) ->
  exists yp, signature_path E = Some yp /\ c = mkConf pn sp yp.
Proof.
  assert (Hprobe : LoadAs c ∉ probe_trace E).
  { unfold probe_trace. destruct (path_exists E (cwd_signatures E)); not_in_list. }
  rewrite scan_eq. destruct (signature_path E) as [yp|].
  - cbv zeta. intros Hin. exists yp. split; [reflexivity|].
    assert (Hload : LoadAs c ∈ load_trace E (mkConf pn sp yp) -> c = mkConf pn sp yp).
    { unfold load_trace. intros H. apply elem_of_app in H as [H|H]; [contradiction|].
      in_explicit H. congruence. }
    destruct (load_as E (mkConf pn sp yp)); cbn [snd] in Hin; [apply Hload, Hin|].
    apply elem_of_app in Hin as [Hin|Hin]; [apply Hload, Hin|].
    apply elem_of_app in Hin as [Hin|Hin]; [in_explicit Hin|].
    exfalso. rewrite scan_loop_trace in Hin.
    destruct (scan_loop_spec E (items (yara_calculate E (mkConf pn sp yp))) None []
                (NoDup_nil_2)) as (rs & Ht & _).
    rewrite Ht in Hin. apply list_elem_of_bind in Hin as (r & Hin & _).
    unfold report_events in Hin. destruct (o r); in_explicit Hin.
  - cbn [snd]. intros Hin. contradiction.
Qed.

End ProtocolFacts.

(** X8.  Every run of [main] keeps to the lifecycle of the service: [create],
    [start], [stop] and [delete] are attempted in this order, each at most
    once, none before its predecessor, all on the one service object; and the
    look-ups of the signature file, the image load, the Yara call and every
    result message fall between the attempt to start and the attempt to
    stop. *)
Theorem X8_lifecycle_protocol (E : collaborators) :
  exists p, protocol (the_service E) Idle (snd (main E)) = Some p.
Proof.
  destruct (main_stages E)
    as [H|[[H1 H2]|[(H1 & H2 & m & H3)|[(H1 & H2 & H3 & m & H4)|H]]]].
  - rewrite (main_no_profile E H). cbn. eauto.
  - rewrite (main_no_driver E H1 H2). cbn. eauto.
  - rewrite (main_create_fails E m H1 H2 H3). run_protocol. eauto.
  - rewrite (main_start_fails E m H1 H2 H3 H4). run_protocol. eauto.
  - rewrite (main_started E H).
    assert (Hup : protocol (the_service E) Idle (startup_trace E) = Some Started).
    { unfold startup_trace. run_protocol. reflexivity. }
    destruct (scan_quiet E (cfg_service_path E) (default "" (cfg_profile E)))
      as [_ Hq]. fold (scan_step E) in Hq.
    destruct (protocol_teardown E) as (p & Hp & _).
    destruct (scan_step E) as [[b|[msg|c]] st]; cbn [snd] in *.
    + rewrite protocol_app, Hup. rewrite protocol_app, (protocol_started _ st Hq).
      cbn [app]. run_protocol. rewrite protocol_app, Hp. run_protocol. eauto.
    + rewrite protocol_app, Hup. rewrite protocol_app, (protocol_started _ st Hq).
      cbn [app]. run_protocol. rewrite protocol_app, Hp. run_protocol. eauto.
    + rewrite protocol_app, Hup, (protocol_started _ st Hq). eauto.
Qed.

(** X9.  A run of [main] returns normally with nothing on either queue
    exactly when the service was started and [scan] returned [False]: silence
    on both queues after a normal return means a completed scan without
    detections, never a failure. *)
Theorem X9_silent_success (E : collaborators) :
  (fst (main E) = Ret tt
   /\ results_of (snd (main E)) = [] /\ errors_of (snd (main E)) = [])
  <-> (service_started E /\ fst (scan_step E) = Ret false).
Proof.
  split.
  - intros (Hret & Hres & Herr).
    destruct (main_stages E)
      as [H|[[H1 H2]|[(H1 & H2 & m & H3)|[(H1 & H2 & H3 & m & H4)|H]]]].
    + rewrite (main_no_profile E H) in Herr. discriminate Herr.
    + rewrite (main_no_driver E H1 H2) in Herr. discriminate Herr.
    + rewrite (main_create_fails E m H1 H2 H3) in Herr. discriminate Herr.
    + rewrite (main_start_fails E m H1 H2 H3 H4) in Herr. discriminate Herr.
    + split; [exact H|].
      rewrite (main_started_errors E H) in Herr.
      destruct (main_results E) as [Hr | [_ Hr]].
      * rewrite (main_started E H) in Hret, Hr.
        destruct (scan_step E) as [[b|[msg|c]] st] eqn:Hs; cbn [fst snd] in *;
          try discriminate.
        rewrite !results_of_app in Hr. apply app_eq_nil in Hr as [_ Hr].
        apply app_eq_nil in Hr as [Hr _].
        f_equal. apply (scan_ret_results E (cfg_service_path E)
                          (default "" (cfg_profile E)) b).
        -- fold (scan_step E). rewrite Hs. reflexivity.
        -- fold (scan_step E). rewrite Hs. exact Hr.
      * rewrite Hres in Hr. rewrite (main_started E H) in Hret.
        destruct (scan_step E) as [[b|[msg|c]] st] eqn:Hs; cbn [fst snd] in *;
          try discriminate.
        f_equal. apply (scan_ret_results E (cfg_service_path E)
                          (default "" (cfg_profile E)) b).
        -- fold (scan_step E). rewrite Hs. reflexivity.
        -- fold (scan_step E). rewrite Hs. symmetry. exact Hr.
  - intros (Hst & Hs).
    split; [|split].
    + rewrite (main_started E Hst).
      destruct (scan_step E) as [[b|[msg|c]] st]; cbn [fst] in *;
        try discriminate; reflexivity.
    + destruct (main_results E) as [Hr | [_ Hr]]; [exact Hr|]. rewrite Hr.
      apply (scan_ret_results E (cfg_service_path E) (default "" (cfg_profile E)) false).
      * exact Hs.
      * reflexivity.
    + rewrite (main_started_errors E Hst), Hs. reflexivity.
Qed.

(** X9, on the healthy sample machine with an empty match stream. *)
Lemma X9_silent_success_witness :
  fst (main (Sample.healthy Sample.no_matches)) = Ret tt
  /\ results_of (snd (main (Sample.healthy Sample.no_matches))) = []
  /\ errors_of (snd (main (Sample.healthy Sample.no_matches))) = [].
Proof.
  apply (X9_silent_success (Sample.healthy Sample.no_matches)).
  split; [repeat split|reflexivity].
Defined.

(** X10.  When no profile can be selected, also when the profile name comes
    back empty, or when no driver is found, [main] only logs and posts one
    error message before it returns: no service call, no look-up of the
    signature file, no call into Volatility, no result message.  The profile
    is tested first, so a run that lacks both reports the profile. *)
Theorem X10_nothing_touched (E : collaborators) :
  truthy (cfg_profile E) = false \/ cfg_get_driver_path E = false ->
  fst (main E) = Ret tt
  /\ Forall (fun ev => touches_outside ev = false) (snd (main E))
  /\ List.length (errors_of (snd (main E))) = 1%nat
  /\ (cfg_profile E = None \/ cfg_profile E = Some "" ->
      errors_of (snd (main E)) = [UNSUPPORTED_WINDOWS]).
Proof.
  intros H.
  destruct (truthy (cfg_profile E)) eqn:Hp.
  - destruct H as [H|H]; [discriminate H|].
    rewrite (main_no_driver E Hp H). cbn [fst snd].
    split; [reflexivity|]. split; [repeat constructor|]. split; [reflexivity|].
    intros [Hn|Hn]; rewrite Hn in Hp; discriminate Hp.
  - rewrite (main_no_profile E Hp). cbn [fst snd].
    split; [reflexivity|]. split; [repeat constructor|]. split; reflexivity.
Qed.

(** X10, on the sample machine whose profile name is empty. *)
Lemma X10_nothing_touched_witness :
  fst (main (Sample.no_profile (Sample.healthy Sample.same_rule_twice))) = Ret tt
  /\ errors_of (snd (main (Sample.no_profile (Sample.healthy Sample.same_rule_twice))))
     = [UNSUPPORTED_WINDOWS].
Proof.
  destruct (X10_nothing_touched
              (Sample.no_profile (Sample.healthy Sample.same_rule_twice)))
    as (H1 & _ & _ & H4).
  - left. reflexivity.
  - split; [exact H1|]. apply H4. right. reflexivity.
Defined.

(** X11.  When [create] raises a [DetectorError], [start] is never attempted
    and nothing is torn down; [scan] is not called.  The text of the exception
    is logged at critical level and the message posted is [SERVICE_NO_START],
    the same as for a failing [start]: the error queue does not tell the two
    apart. *)
Theorem X11_create_fails (E : collaborators) (msg : string) :
  truthy (cfg_profile E) = true ->
  cfg_get_driver_path E = true ->
  service_create E (the_service E) = Some msg ->
  main E
  = (Ret tt,
     [Log INFO ("Selected Profile Name: " +:+ default "" (cfg_profile E)) [];
      Log INFO ("Selected Driver: " +:+ cfg_driver E) [];
      ServiceCall (the_service E) Create;
      Log CRITICAL "Unable to start winpmem service: %s" [PStr msg];
      PutError SERVICE_NO_START])
  /\ service_calls_of (snd (main E)) = [Create]
  /\ results_of (snd (main E)) = []
  /\ errors_of (snd (main E)) = [SERVICE_NO_START].
Proof.
  intros H1 H2 H3. rewrite (main_create_fails E msg H1 H2 H3). cbn [snd].
  repeat split.
Qed.

(** X11, on the sample machine whose driver cannot be registered. *)
Lemma X11_create_fails_witness :
  service_calls_of
    (snd (main (Sample.create_refused (Sample.healthy Sample.same_rule_twice))))
  = [Create]
  /\ errors_of
       (snd (main (Sample.create_refused (Sample.healthy Sample.same_rule_twice))))
     = [SERVICE_NO_START].
Proof.
  destruct (X11_create_fails
              (Sample.create_refused (Sample.healthy Sample.same_rule_twice))
              "CreateService failed")
    as (_ & Hc & _ & He); try reflexivity.
  split; [exact Hc|exact He].
Defined.

(** X12.  Whenever a run of [main] asks Volatility for the image, the service
    has been created and started, and the configuration handed over is the one
    of this run: the selected profile, which is not empty, as [PROFILE], the
    service's device path as [LOCATION], and the signature file [scan]
    settled on as [YARA_FILE].  So the image is loaded with at most one
    configuration per run. *)
Theorem X12_image_configuration (E : collaborators) (c : ConfObject) :
  LoadAs c ∈ snd (main E) ->
  service_started E
  /\ PROFILE c <> ""
  /\ cfg_profile E = Some (PROFILE c)
  /\ LOCATION c = cfg_service_path E
  /\ signature_path E = Some (YARA_FILE c).
Proof.
  intros Hin.
  destruct (main_stages E)
    as [H|[[H1 H2]|[(H1 & H2 & m & H3)|[(H1 & H2 & H3 & m & H4)|H]]]].
  - rewrite (main_no_profile E H) in Hin. cbn [snd] in Hin. in_explicit Hin.
  - rewrite (main_no_driver E H1 H2) in Hin. cbn [snd] in Hin. in_explicit Hin.
  - rewrite (main_create_fails E m H1 H2 H3) in Hin. cbn [snd] in Hin. in_explicit Hin.
  - rewrite (main_start_fails E m H1 H2 H3 H4) in Hin. cbn [snd] in Hin.
    in_explicit Hin.
  - split; [exact H|].
    assert (Hscan : LoadAs c ∈ snd (scan_step E)).
    { rewrite (main_started E H) in Hin.
      assert (Htd : LoadAs c ∉ snd (teardown E (the_service E))).
      { rewrite teardown_eq. cbn [snd].
        destruct (service_stop E (the_service E));
          [|destruct (service_delete E (the_service E))]; not_in_list. }
      assert (Hup : LoadAs c ∉ startup_trace E) by (unfold startup_trace; not_in_list).
      destruct (scan_step E) as [[b|[msg|c']] st]; cbn [snd] in *.
      - apply elem_of_app in Hin as [Hin|Hin]; [contradiction|].
        apply elem_of_app in Hin as [Hin|Hin]; [exact Hin|]. exfalso.
        apply elem_of_app in Hin as [Hin|Hin]; [in_explicit Hin|].
        apply elem_of_app in Hin as [Hin|Hin]; [contradiction|in_explicit Hin].
      - apply elem_of_app in Hin as [Hin|Hin]; [contradiction|].
        apply elem_of_app in Hin as [Hin|Hin]; [exact Hin|]. exfalso.
        apply elem_of_app in Hin as [Hin|Hin]; [in_explicit Hin|].
        apply elem_of_app in Hin as [Hin|Hin]; [contradiction|in_explicit Hin].
      - apply elem_of_app in Hin as [Hin|Hin]; [contradiction|exact Hin]. }
    destruct (scan_load_config E _ _ c Hscan) as (yp & Hsig & ->).
    cbn [PROFILE LOCATION YARA_FILE]. destruct H as (Hp & _).
    unfold truthy in Hp. destruct (cfg_profile E) as [pf|]; [|discriminate Hp].
    change (default "" (Some pf)) with pf.
    split; [intros Heq; rewrite Heq in Hp; discriminate Hp|].
    repeat split; assumption.
Qed.

(** X12, on the healthy sample machine. *)
Lemma X12_image_configuration_witness :
  service_started (Sample.healthy Sample.same_rule_twice)
  /\ signature_path (Sample.healthy Sample.same_rule_twice)
     = Some "C:/detekt/signatures.yar".
Proof.
  destruct (X12_image_configuration (Sample.healthy Sample.same_rule_twice)
              (mkConf "Win7SP1x64" "//./pmem" "C:/detekt/signatures.yar"))
    as (H1 & _ & _ & _ & H5).
  - vm_compute. do 9 right. left.
  - split; [exact H1|exact H5].
Defined.

(** X13.  Yara is never run on an image that failed to load: whenever [scan]
    asks for the matches, the signature file was found, the loader returned
    for exactly this configuration, and the request comes right after the
    load in the trace. *)
Theorem X13_yara_after_load (E : collaborators) (sp pn : string) (c : ConfObject) :
  YaraCalculate c ∈ snd (scan E sp pn) ->
  signature_path E = Some (YARA_FILE c)
  /\ c = mkConf pn sp (YARA_FILE c)
  /\ load_as E c = None
  /\ exists before after,
       snd (scan E sp pn) = before ++ [LoadAs c; YaraCalculate c] ++ after.
Proof.
  assert (Hprobe : YaraCalculate c ∉ probe_trace E).
  { unfold probe_trace. destruct (path_exists E (cwd_signatures E)); not_in_list. }
  assert (Hload : forall c', YaraCalculate c ∉ load_trace E c').
  { intros c' H. unfold load_trace in H.
    apply elem_of_app in H as [H|H]; [contradiction|]. in_explicit H. }
  rewrite scan_eq. destruct (signature_path E) as [yp|]; [|intros H; contradiction].
  cbv zeta. destruct (load_as E (mkConf pn sp yp)) eqn:Hl; cbn [snd].
  - intros H. apply Hload in H. contradiction.
  - intros H. apply elem_of_app in H as [H|H]; [apply Hload in H; contradiction|].
    apply elem_of_app in H as [H|H].
    + apply list_elem_of_singleton in H. injection H as ->.
      cbn [YARA_FILE]. split; [reflexivity|]. split; [reflexivity|].
      split; [exact Hl|].
      exists (probe_trace E
                ++ [Log INFO "Selected Yara signature file at %s" [PStr yp];
                    Log INFO "Obtaining address space and generating config for volatility" []]).
      eexists. unfold load_trace. cbn [YARA_FILE].
      rewrite <- !app_assoc. reflexivity.
    + exfalso. rewrite scan_loop_trace in H.
      destruct (scan_loop_spec E (items (yara_calculate E (mkConf pn sp yp))) None []
                  (NoDup_nil_2)) as (rs & Ht & _).
      rewrite Ht in H. apply list_elem_of_bind in H as (r & H & _).
      unfold report_events in H. destruct (o r); in_explicit H.
Qed.

(** X13, on the healthy sample machine. *)
Lemma X13_yara_after_load_witness :
  load_as (Sample.healthy Sample.same_rule_twice)
    (mkConf "Win7SP1x64" "//./pmem" "C:/detekt/signatures.yar") = None
  /\ signature_path (Sample.healthy Sample.same_rule_twice)
     = Some "C:/detekt/signatures.yar".
Proof.
  destruct (X13_yara_after_load (Sample.healthy Sample.same_rule_twice)
              "//./pmem" "Win7SP1x64"
              (mkConf "Win7SP1x64" "//./pmem" "C:/detekt/signatures.yar"))
    as (H1 & _ & H3 & _).
  - vm_compute. do 4 right. left.
  - split; [exact H3|exact H1].
Defined.
